(** * info_hub_agent: the three extractor tools of [agent.py]

    A shallow embedding of [get_hackernews_posts],
    [get_github_trending_repos] and [get_deped_rss_feed].

    What the module computes itself is written out: the walks over the
    parsed HTML and XML trees, the string clean-up, the slices, the
    result dictionaries and the [try]/[except]/[return] control flow.
    What it delegates to [requests], [bs4], [xml.etree.ElementTree],
    the UTF-8 codec and [datetime] is taken from a [Library] record, one
    field per call, each returning either a value or a raised exception.

    Text ([str]) is modelled by [string]; its characters stand for the
    code points 0..255, on which [isspace] below is Python's. *)

From Stdlib Require Import List String Ascii ZArith Lia Bool Arith.
From Stdlib Require Import DecimalString.
Import ListNotations.
Open Scope string_scope.
Open Scope list_scope.
Set Warnings "-register-all".

(** ** Python strings *)

Module PyStr.

(** [str.isspace] on the code points below 256: TAB, LF, VT, FF, CR,
    FS, GS, RS, US, SPACE, NEL and NBSP. *)
Definition isspace (c : ascii) : bool :=
  let n := nat_of_ascii c in
  (((9 <=? n) && (n <=? 13)) || ((28 <=? n) && (n <=? 32))
   || (n =? 133) || (n =? 160))%nat.

Fixpoint lstrip (s : string) : string :=
  match s with
  | String c s' => if isspace c then lstrip s' else s
  | EmptyString => EmptyString
  end.

(** [rstrip]: a character is kept when it is not a space or when
    something is kept after it. *)
Fixpoint rstrip (s : string) : string :=
  match s with
  | EmptyString => EmptyString
  | String c s' =>
      match rstrip s' with
      | EmptyString => if isspace c then EmptyString else String c EmptyString
      | r => String c r
      end
  end.

(** [s.strip()] *)
Definition strip (s : string) : string := rstrip (lstrip s).

(** [sep.join(parts)] *)
Fixpoint join (sep : string) (parts : list string) : string :=
  match parts with
  | [] => ""
  | [p] => p
  | p :: ps => p ++ sep ++ join sep ps
  end.

(** [s.replace(old, new)] for a one-character [old]: every occurrence
    is replaced, left to right. The two calls of the module have
    [old = " "] and [old = "\n"]. *)
Fixpoint replace (old : ascii) (new : string) (s : string) : string :=
  match s with
  | EmptyString => EmptyString
  | String c s' =>
      if Ascii.eqb c old then new ++ replace old new s'
      else String c (replace old new s')
  end.

Definition space : ascii := " "%char.
Definition newline : ascii := ascii_of_nat 10.

(** [str(n)] for an [int]. *)
Definition of_int (z : Z) : string := NilZero.string_of_int (Z.to_int z).

End PyStr.

(** ** Python values returned to the caller *)

Inductive pyval : Type :=
| VNone
| VStr (s : string)
| VList (l : list pyval)
| VDict (d : list (string * pyval)).

(** [d[k]], [None] for a missing key or a value that is not a dict. *)
Fixpoint assoc {A} (k : string) (d : list (string * A)) : option A :=
  match d with
  | [] => None
  | (k', v) :: d' => if String.eqb k k' then Some v else assoc k d'
  end.

Definition dict_get (k : string) (v : pyval) : option pyval :=
  match v with
  | VDict d => assoc k d
  | _ => None
  end.

(** [Optional[str]] as a Python value. *)
Definition of_text (t : option string) : pyval :=
  match t with
  | Some s => VStr s
  | None => VNone
  end.

(** ** Slices *)

(** [l[:stop]] with [stop] an [int] or [None]: a negative [stop] counts
    from the end, and the bound is clamped to [0 .. len(l)]. *)
Definition slice_to {A} (stop : option Z) (l : list A) : list A :=
  match stop with
  | None => l
  | Some k =>
      let n := Z.of_nat (List.length l) in
      let k' := if (k <? 0)%Z then Z.max (k + n) 0 else Z.min k n in
      firstn (Z.to_nat k') l
  end.

(** ** Exceptions *)

Inductive exn_class : Type :=
| ParseError        (* xml.etree.ElementTree.ParseError *)
| TypeError
| ValueError
| RequestException  (* requests.exceptions.RequestException *)
| OtherException.   (* any other subclass of Exception *)

(** An instance of [Exception]: its class and [str(e)]. These are the
    exceptions a library call raises; the interpreter's own
    [KeyboardInterrupt] and [SystemExit], which are not instances of
    [Exception], belong to no call and are not modelled. *)
Record pyexn : Type := PyExn { exn_cls : exn_class; exn_str : string }.

Definition is_ParseError (e : pyexn) : bool :=
  match exn_cls e with
  | ParseError => true
  | _ => false
  end.

(** ** Parsed HTML ([bs4]) *)

Module Bs4.

(** A node of the parsed page. [NavigableString] is a text node;
    [Comment] stands for the string nodes that are not text (comments,
    doctypes and the like), which [get_text] and [stripped_strings] skip.
    A [Tag] carries its name, the values of its [class] attribute (the
    one attribute the parser splits into a list; empty when absent), its
    other attributes, and its contents. *)
Inductive node : Type :=
| NavigableString (s : string)
| Comment (s : string)
| Tag (name : string) (classes : list string)
      (attrs : list (string * string)) (contents : list node).

(** [tag.descendants]: every node below [n], in document order. *)
Fixpoint descendants (n : node) : list node :=
  match n with
  | Tag _ _ _ contents => flat_map (fun c => c :: descendants c) contents
  | _ => []
  end.

(** Does [n] match [name] and, when given, [class_]? A class matches
    when it is one of the tag's classes or the whole attribute. *)
Definition matches (name : string) (class_ : option string) (n : node) : bool :=
  match n with
  | Tag name' classes _ _ =>
      String.eqb name' name &&
      match class_ with
      | None => true
      | Some c =>
          existsb (String.eqb c) classes
          || String.eqb (PyStr.join " " classes) c
      end
  | _ => false
  end.

(** [tag.find_all(name, class_=...)] *)
Definition find_all (name : string) (class_ : option string) (n : node)
  : list node :=
  filter (matches name class_) (descendants n).

(** [tag.find(name, class_=...)]: the first match, or [None]. *)
Definition find (name : string) (class_ : option string) (n : node)
  : option node :=
  hd_error (find_all name class_ n).

(** [tag[key]] under [tag.has_attr(key)]: [None] when the attribute is
    absent. *)
Definition attr (key : string) (n : node) : option string :=
  match n with
  | Tag _ _ attrs _ => assoc key attrs
  | _ => None
  end.

(** [tag.stripped_strings]: the text nodes below [n], each stripped,
    the empty ones dropped. *)
Definition stripped_strings (n : node) : list string :=
  flat_map
    (fun d =>
       match d with
       | NavigableString s =>
           let s' := PyStr.strip s in
           if String.eqb s' "" then [] else [s']
       | _ => []
       end)
    (descendants n).

(** [tag.get_text(strip=True)]: the same strings, joined by the default
    separator, the empty string. *)
Definition get_text_strip (n : node) : string :=
  PyStr.join "" (stripped_strings n).

End Bs4.

(** ** Parsed XML ([xml.etree.ElementTree]) *)

Module ET.

(** An element: its tag (a namespaced one reads [{uri}local]), its
    [text] ([None] when it has none) and its children. *)
Inductive element : Type :=
| Element (tag : string) (text : option string) (children : list element).

Definition tag (e : element) : string :=
  match e with Element t _ _ => t end.

Definition text (e : element) : option string :=
  match e with Element _ t _ => t end.

Definition children (e : element) : list element :=
  match e with Element _ _ c => c end.

(** [e.findall(name)] for a plain tag name: the children so named. *)
Definition findall (name : string) (e : element) : list element :=
  filter (fun c => String.eqb (tag c) name) (children e).

(** [e.find(name)] *)
Definition find (name : string) (e : element) : option element :=
  hd_error (findall name e).

(** The elements below [e], in document order. *)
Fixpoint descendants (e : element) : list element :=
  match e with
  | Element _ _ cs => flat_map (fun c => c :: descendants c) cs
  end.

(** [e.find(".//" + name)]: the first element so named anywhere below
    [e]. *)
Definition find_descendant (name : string) (e : element) : option element :=
  hd_error (filter (fun c => String.eqb (tag c) name) (descendants e)).

End ET.

(** ** What the libraries are asked, and what they answer *)

Definition bytes : Type := list Byte.byte.

(** [requests.Response], the two attributes that are read. *)
Record Response : Type := mkResponse { status_code : Z; content : bytes }.

(** The calls that leave a trace: a GET and an XML parse. *)
Inductive event : Type :=
| EvGet (url : string)
| EvParseXML (body : bytes).

Definition trace : Type := list event.

(** One field per library call. The network may answer a request by
    what was asked before it. *)
Record Library : Type := mkLibrary {
  (* requests.get(url, ...) *)
  network : trace -> string -> pyexn + Response;
  (* BeautifulSoup(content, "html.parser") *)
  html_parser : bytes -> pyexn + Bs4.node;
  (* ET.fromstring(content) *)
  fromstring : bytes -> pyexn + ET.element;
  (* content.decode('utf-8', errors='ignore') *)
  decode_utf8_ignore : bytes -> string;
  (* text.encode('utf-8') *)
  encode_utf8 : string -> bytes;
  datetime : Type;
  (* datetime.strptime(text, format) *)
  strptime : string -> string -> pyexn + datetime;
  (* dt.strftime(format) *)
  strftime : datetime -> string -> string
}.

(** ** Control flow: values, [return] and [raise] over a trace *)

Inductive outcome (A : Type) : Type :=
| Normal (a : A)         (* the statement completed with [a] *)
| Return (v : pyval)     (* a [return v] was executed *)
| Raise (e : pyexn).     (* an exception is propagating *)
Arguments Normal {A} a.
Arguments Return {A} v.
Arguments Raise {A} e.

Definition M (A : Type) : Type := trace -> outcome A * trace.

Definition ret {A} (a : A) : M A := fun t => (Normal a, t).

Definition bind {A B} (m : M A) (k : A -> M B) : M B :=
  fun t =>
    match m t with
    | (Normal a, t') => k a t'
    | (Return v, t') => (Return v, t')
    | (Raise e, t') => (Raise e, t')
    end.

Definition return_ {A} (v : pyval) : M A := fun t => (Return v, t).

Definition raise {A} (e : pyexn) : M A := fun t => (Raise e, t).

(** [try: m  except C as e: h e], with [catches e] telling whether [e]
    is an instance of [C]. A [return] inside [m] leaves the [try]. *)
Definition try_except {A} (catches : pyexn -> bool) (m : M A)
  (h : pyexn -> M A) : M A :=
  fun t =>
    match m t with
    | (Raise e, t') => if catches e then h e t' else (Raise e, t')
    | r => r
    end.

(** [except Exception]: every [pyexn] is one. *)
Definition Exception (e : pyexn) : bool := true.

(** The answer of a library call, as a statement. *)
Definition lift {A} (r : pyexn + A) : M A :=
  match r with
  | inl e => raise e
  | inr a => ret a
  end.

(** The call of a function whose body is [m]: the value it returns
    ([None] when the body ends without [return]) or the exception that
    leaves it. *)
Definition call (m : M unit) (t : trace) : (pyexn + pyval) * trace :=
  match m t with
  | (Normal _, t') => (inr VNone, t')
  | (Return v, t') => (inr v, t')
  | (Raise e, t') => (inl e, t')
  end.

Declare Scope py_scope.
Delimit Scope py_scope with py.
Notation "x <- m ;; k" := (bind m (fun x => k))
  (at level 61, m at next level, right associativity) : py_scope.
Open Scope py_scope.

(** ** The module *)

Section Agent.

Variable L : Library.

(** [requests.get(url, ...)]: the request is recorded, and the network
    answers it or the call raises. *)
Definition requests_get (url : string) : M Response :=
  fun t => lift (network L t url) (t ++ [EvGet url]).

(** [BeautifulSoup(content, "html.parser")] *)
Definition BeautifulSoup (body : bytes) : M Bs4.node :=
  lift (html_parser L body).

(** [ET.fromstring(content)]: the attempt is recorded. *)
Definition ET_fromstring (body : bytes) : M ET.element :=
  fun t => lift (fromstring L body) (t ++ [EvParseXML body]).

(** [datetime.strptime(text, format)]; [text] may be [None], which is a
    [TypeError]. *)
Definition datetime_strptime (text : option string) (format : string)
  : M (datetime L) :=
  match text with
  | Some s => lift (strptime L s format)
  | None =>
      raise (PyExn TypeError "strptime() argument 1 must be str, not None")
  end.

(** The two envelopes. *)
Definition success (payload : list (string * pyval)) : pyval :=
  VDict (("status", VStr "success") :: payload).

Definition error (message : string) : pyval :=
  VDict [("status", VStr "error"); ("error_message", VStr message)].

Definition entry (title link : string) : pyval :=
  VDict [("title", VStr title); ("link", VStr link)].

(** *** get_hackernews_posts *)

(** The loop over the rows, [posts] being the list built so far. *)
Fixpoint hackernews_rows (post_rows : list Bs4.node) (posts : list pyval)
  : list pyval :=
  match post_rows with
  | [] => posts
  | row :: rest =>
      hackernews_rows rest
        match Bs4.find "span" (Some "titleline") row with
        | Some title_span =>
            match Bs4.find "a" None title_span with
            | Some link_tag =>
                match Bs4.attr "href" link_tag with
                | Some link =>
                    let title := Bs4.get_text_strip link_tag in
                    posts ++ [entry title link]
                | None => posts
                end
            | None => posts
            end
        | None => posts
        end
  end.

(** [number_of_posts] defaults to [None]. *)
Definition get_hackernews_posts (number_of_posts : option Z) : M unit :=
  try_except Exception
    (res <- requests_get "https://news.ycombinator.com/" ;;
     soup <- BeautifulSoup (content res) ;;
     let post_rows := Bs4.find_all "tr" (Some "athing") soup in
     let posts := hackernews_rows post_rows [] in
     let posts :=
       match number_of_posts with
       | Some _ => slice_to number_of_posts posts
       | None => posts
       end in
     return_ (success [("posts", VList posts)]))
    (fun e =>
       return_ (error ("Error when trying to get hackernews posts: "
                       ++ exn_str e))).

(** *** get_github_trending_repos *)

(** The title of a repository, from its anchor. *)
Definition repo_title (link_tag : Bs4.node) : string :=
  let title_parts := Bs4.stripped_strings link_tag in
  if (2 <=? List.length title_parts)%nat then
    PyStr.replace PyStr.space "" (PyStr.join " " title_parts)
  else
    PyStr.replace PyStr.space ""
      (PyStr.replace PyStr.newline "" (Bs4.get_text_strip link_tag)).

(** The loop over the articles, [repos] being the list built so far. *)
Fixpoint trending_articles (repo_articles : list Bs4.node)
  (repos : list pyval) : list pyval :=
  match repo_articles with
  | [] => repos
  | article :: rest =>
      trending_articles rest
        match Bs4.find "h2" (Some "h3") article with
        | None => repos
        | Some h2_tag =>
            match Bs4.find "a" None h2_tag with
            | Some link_tag =>
                match Bs4.attr "href" link_tag with
                | Some relative_link =>
                    let full_link := ("https://github.com" ++ relative_link)%string in
                    repos ++ [entry (repo_title link_tag) full_link]
                | None => repos
                end
            | None => repos
            end
        end
  end.

(** [number_of_repos] defaults to [None]. *)
Definition get_github_trending_repos (number_of_repos : option Z) : M unit :=
  try_except Exception
    (res <- requests_get "https://github.com/trending" ;;
     soup <- BeautifulSoup (content res) ;;
     let repo_articles := Bs4.find_all "article" (Some "Box-row") soup in
     let repos := trending_articles repo_articles [] in
     let repos :=
       match number_of_repos with
       | Some _ => slice_to number_of_repos repos
       | None => repos
       end in
     return_ (success [("repos", VList repos)]))
    (fun e =>
       return_ (error ("Error when trying to get trending repos: "
                       ++ exn_str e))).

(** *** get_deped_rss_feed *)

(** [e.find(name).text if e.find(name) is not None else ""] *)
Definition text_or_empty (name : string) (e : ET.element) : option string :=
  match ET.find name e with
  | Some child => ET.text child
  | None => Some ""
  end.

(** Truth of an [Optional[str]]: neither [None] nor empty. *)
Definition truthy (t : option string) : bool :=
  match t with
  | Some s => negb (String.eqb s "")
  | None => false
  end.

(** The loop over an item's [category] elements. *)
Fixpoint item_categories (cats : list ET.element) (categories : list pyval)
  : list pyval :=
  match cats with
  | [] => categories
  | category :: rest =>
      item_categories rest
        (if truthy (ET.text category)
         then categories ++ [of_text (ET.text category)]
         else categories)
  end.

Definition dc_creator : string :=
  "{http://purl.org/dc/elements/1.1/}creator".

Definition item_creator (item : ET.element) : pyval :=
  match ET.find_descendant dc_creator item with
  | Some creator_elem =>
      if truthy (ET.text creator_elem) then of_text (ET.text creator_elem)
      else VStr ""
  | None => VStr ""
  end.

Definition rfc822 : string := "%a, %d %b %Y %H:%M:%S %z".
Definition nice_date : string := "%B %d, %Y at %I:%M %p".

(** The body of the loop over the items: the record of one item. *)
Definition feed_item (item : ET.element) : M pyval :=
  let pub_date := text_or_empty "pubDate" item in
  formatted_date <-
    try_except Exception
      (dt <- datetime_strptime pub_date rfc822 ;;
       ret (VStr (strftime L dt nice_date)))
      (fun _ => ret (of_text pub_date)) ;;
  let description := text_or_empty "description" item in
  let categories := item_categories (ET.findall "category" item) [] in
  let creator := item_creator item in
  ret (VDict [("title", of_text (text_or_empty "title" item));
              ("link", of_text (text_or_empty "link" item));
              ("description", of_text description);
              ("pub_date", of_text pub_date);
              ("formatted_date", formatted_date);
              ("categories", VList categories);
              ("creator", creator)]).

(** The loop over the items, [items] being the list built so far. *)
Fixpoint feed_items (elems : list ET.element) (items : list pyval)
  : M (list pyval) :=
  match elems with
  | [] => ret items
  | item :: rest =>
      record <- feed_item item ;;
      feed_items rest (items ++ [record])
  end.

Definition primary_url : string := "https://www.deped.gov.ph/feed/".
Definition alternate_url : string := "https://www.deped.gov.ph/feed".

(** [max_items] defaults to [10]. *)
Definition get_deped_rss_feed (max_items : option Z) : M unit :=
  try_except Exception
    (response <- requests_get primary_url ;;
     response <-
       (if negb (status_code response =? 200)%Z then
          response <- requests_get alternate_url ;;
          if negb (status_code response =? 200)%Z then
            return_ (error ("Failed to fetch RSS feed. Status code: "
                            ++ PyStr.of_int (status_code response)))
          else ret response
        else ret response) ;;
     root <-
       try_except is_ParseError
         (ET_fromstring (content response))
         (fun _ =>
            let cleaned_content := decode_utf8_ignore L (content response) in
            let cleaned_content := encode_utf8 L cleaned_content in
            try_except is_ParseError
              (ET_fromstring cleaned_content)
              (fun e =>
                 return_ (error ("Failed to parse RSS feed XML: "
                                 ++ exn_str e)))) ;;
     match ET.find "channel" root with
     | None =>
         return_
           (error "Invalid RSS feed format (no channel element found)")
     | Some channel =>
         let feed_info :=
           VDict [("title", of_text (text_or_empty "title" channel));
                  ("link", of_text (text_or_empty "link" channel));
                  ("description",
                   of_text (text_or_empty "description" channel));
                  ("last_build_date",
                   of_text (text_or_empty "lastBuildDate" channel))] in
         items <-
           feed_items (slice_to max_items (ET.findall "item" channel)) [] ;;
         return_ (success [("feed_info", feed_info);
                           ("items", VList items)])
     end)
    (fun e =>
       return_ (error ("Error when trying to parse DepEd RSS feed: "
                       ++ exn_str e))).

(** *** The stages of get_deped_rss_feed

    The body above runs three stages in sequence (lemma
    [get_deped_rss_feed_stages]); the statements below name the trees
    they are about through them. *)

(** The fetch: the response that goes on to be parsed. *)
Definition fetch_response : M Response :=
  response <- requests_get primary_url ;;
  if negb (status_code response =? 200)%Z then
    response <- requests_get alternate_url ;;
    if negb (status_code response =? 200)%Z then
      return_ (error ("Failed to fetch RSS feed. Status code: "
                      ++ PyStr.of_int (status_code response)))
    else ret response
  else ret response.

(** The parse, with its recovery pass. *)
Definition parse_response (response : Response) : M ET.element :=
  try_except is_ParseError
    (ET_fromstring (content response))
    (fun _ =>
       let cleaned_content := decode_utf8_ignore L (content response) in
       let cleaned_content := encode_utf8 L cleaned_content in
       try_except is_ParseError
         (ET_fromstring cleaned_content)
         (fun e =>
            return_ (error ("Failed to parse RSS feed XML: "
                            ++ exn_str e)))).

(** The channel information of a channel element. *)
Definition channel_info (channel : ET.element) : pyval :=
  VDict [("title", of_text (text_or_empty "title" channel));
         ("link", of_text (text_or_empty "link" channel));
         ("description", of_text (text_or_empty "description" channel));
         ("last_build_date",
          of_text (text_or_empty "lastBuildDate" channel))].

(** The extraction from the parsed tree. *)
Definition read_feed (max_items : option Z) (root : ET.element) : M unit :=
  match ET.find "channel" root with
  | None =>
      return_ (error "Invalid RSS feed format (no channel element found)")
  | Some channel =>
      items <-
        feed_items (slice_to max_items (ET.findall "item" channel)) [] ;;
      return_ (success [("feed_info", channel_info channel);
                        ("items", VList items)])
  end.

(** The tree that reaches the extraction from trace [t], if one does,
    and the trace by then. *)
Definition parsed_feed (t : trace) : option (ET.element * trace) :=
  match fetch_response t with
  | (Normal response, t1) =>
      match parse_response response t1 with
      | (Normal root, t2) => Some (root, t2)
      | _ => None
      end
  | _ => None
  end.

(** The page that reaches the extraction of a scraper fetching [url]. *)
Definition parsed_page (url : string) (t : trace) : option Bs4.node :=
  match network L t url with
  | inr res =>
      match html_parser L (content res) with
      | inr soup => Some soup
      | inl _ => None
      end
  | inl _ => None
  end.

(** The formatted date of a publication date: what the [try] of
    [feed_item] leaves in [formatted_date] (lemma [feed_item_run]). *)
Definition formatted_date_of (pub_date : option string) : pyval :=
  match pub_date with
  | Some s =>
      match strptime L s rfc822 with
      | inr dt => VStr (strftime L dt nice_date)
      | inl _ => VStr s
      end
  | None => VNone
  end.

(** The record of an item, as a value (lemma [feed_item_run]). *)
Definition item_record (item : ET.element) : pyval :=
  VDict [("title", of_text (text_or_empty "title" item));
         ("link", of_text (text_or_empty "link" item));
         ("description", of_text (text_or_empty "description" item));
         ("pub_date", of_text (text_or_empty "pubDate" item));
         ("formatted_date",
          formatted_date_of (text_or_empty "pubDate" item));
         ("categories",
          VList (item_categories (ET.findall "category" item) []));
         ("creator", item_creator item)].

End Agent.

(** ** What a caller can observe *)

(** A result envelope with the payload keys [keys]. *)
Definition envelope (keys : list string) (v : pyval) : Prop :=
  (dict_get "status" v = Some (VStr "success")
   /\ Forall (fun k => exists p, dict_get k v = Some p) keys)
  \/ (dict_get "status" v = Some (VStr "error")
      /\ exists message, dict_get "error_message" v = Some (VStr message)).

(** The URLs requested along a trace, in order. *)
Fixpoint requested (t : trace) : list string :=
  match t with
  | [] => []
  | EvGet url :: t' => url :: requested t'
  | EvParseXML _ :: t' => requested t'
  end.

Definition hackernews_url : string := "https://news.ycombinator.com/".
Definition trending_url : string := "https://github.com/trending".

(** The whole extraction of a front page and of a trending page. *)
Definition all_posts (soup : Bs4.node) : list pyval :=
  hackernews_rows (Bs4.find_all "tr" (Some "athing") soup) [].

Definition all_repos (soup : Bs4.node) : list pyval :=
  trending_articles (Bs4.find_all "article" (Some "Box-row") soup) [].

(** The text fields of the channel information and of an item record,
    each with the element it is read from. *)
Definition channel_fields : list (string * string) :=
  [("title", "title"); ("link", "link"); ("description", "description");
   ("last_build_date", "lastBuildDate")].

Definition item_fields : list (string * string) :=
  [("title", "title"); ("link", "link"); ("description", "description");
   ("pub_date", "pubDate")].

(** Where an entry of the trending list comes from: an article of the
    page, its heading, the first anchor of the heading, and its link. *)
Definition repo_of (soup : Bs4.node) (link_tag : Bs4.node) (e : pyval)
  : Prop :=
  exists article h2_tag relative_link,
    In article (Bs4.find_all "article" (Some "Box-row") soup)
    /\ Bs4.find "h2" (Some "h3") article = Some h2_tag
    /\ Bs4.find "a" None h2_tag = Some link_tag
    /\ Bs4.attr "href" link_tag = Some relative_link
    /\ e = entry (repo_title link_tag)
             ("https://github.com" ++ relative_link).

(** ** Test doubles

    A library that serves saved documents: a table of responses by
    URL, a table of parsed trees by body, and a table of dates. *)

Module Fixture.

Definition body (s : string) : bytes := list_byte_of_string s.

Definition refused : pyexn := PyExn RequestException "Connection refused".

Definition serve (sites : list (string * Response)) (t : trace)
  (url : string) : pyexn + Response :=
  match assoc url sites with
  | Some r => inr r
  | None => inl refused
  end.

Definition parse_with {A} (docs : list (string * A)) (failure : pyexn)
  (b : bytes) : pyexn + A :=
  match assoc (string_of_list_byte b) docs with
  | Some d => inr d
  | None => inl failure
  end.

Definition syntax_error : pyexn :=
  PyExn ParseError "syntax error: line 1, column 0".

(** Bytes outside ASCII are what the saved bodies have as invalid
    sequences. *)
Definition drop_non_ascii (b : bytes) : string :=
  string_of_list_byte
    (filter (fun x => (Byte.to_nat x <? 128)%nat) b).

(** The dates the double recognises, with their rendering. *)
Definition dates : list (string * string) :=
  [("Mon, 05 May 2025 08:30:00 +0800", "May 05, 2025 at 08:30 AM")].

Definition library (sites : list (string * Response))
  (pages : list (string * Bs4.node)) (feeds : list (string * ET.element))
  : Library :=
  {| network := serve sites;
     html_parser := parse_with pages (PyExn OtherException "not a page");
     fromstring := parse_with feeds syntax_error;
     decode_utf8_ignore := drop_non_ascii;
     encode_utf8 := list_byte_of_string;
     datetime := string;
     strptime := fun s _ =>
       match assoc s dates with
       | Some d => inr d
       | None =>
           inl (PyExn ValueError "time data does not match format")
       end;
     strftime := fun d _ => d |}.

(** A front page: three posts and a row without a title line. *)
Definition post_row (title link : string) : Bs4.node :=
  Bs4.Tag "tr" ["athing"; "submission"] []
    [Bs4.Tag "td" ["title"] []
       [Bs4.Tag "span" ["titleline"] []
          [Bs4.Tag "a" [] [("href", link)] [Bs4.NavigableString title];
           Bs4.Tag "span" ["sitebit"] []
             [Bs4.NavigableString " (example.org)"]]]].

Definition front_page : Bs4.node :=
  Bs4.Tag "[document]" [] []
    [Bs4.Tag "table" [] []
       [post_row "First" "https://example.org/1";
        Bs4.Tag "tr" ["athing"] [] [Bs4.Tag "td" [] [] []];
        post_row " Second " "https://example.org/2";
        post_row "Third" "item?id=3"]].

(** A trending page: the anchor of a card holds the owner, with the
    slash, in a span, and the name after it. *)
Definition card (owner name : string) : Bs4.node :=
  Bs4.Tag "article" ["Box-row"] []
    [Bs4.Tag "h2" ["h3"; "lh-condensed"] []
       [Bs4.Tag "a" ["Link"] [("href", ("/" ++ owner ++ "/" ++ name)%string)]
          [Bs4.Tag "span" ["text-normal"] []
             [Bs4.NavigableString ("   " ++ owner ++ " /")%string];
           Bs4.NavigableString ("   " ++ name ++ "  ")%string]]].

Definition repo_anchor : Bs4.node :=
  Bs4.Tag "a" ["Link"] [("href", "/owner/repo")]
    [Bs4.Tag "span" ["text-normal"] []
       [Bs4.NavigableString "   owner /"];
     Bs4.NavigableString "   repo  "].

Definition trending_page : Bs4.node :=
  Bs4.Tag "[document]" [] []
    [card "owner" "repo"; card "rocq-prover" "rocq"; card "a" "b"].

Definition scrapers : Library :=
  library
    [(hackernews_url, mkResponse 200 (body "front page"));
     (trending_url, mkResponse 200 (body "trending page"))]
    [("front page", front_page); ("trending page", trending_page)]
    [].

(** A feed: a channel without [lastBuildDate] and with an empty
    [description], and three items. *)
Definition leaf (tag text : string) : ET.element :=
  ET.Element tag (Some text) [].

Definition empty (tag : string) : ET.element := ET.Element tag None [].

Definition item1 : ET.element :=
  ET.Element "item" None
    [leaf "title" "Memorandum";
     leaf "link" "https://www.deped.gov.ph/1";
     leaf "pubDate" "Mon, 05 May 2025 08:30:00 +0800";
     leaf dc_creator "admin";
     empty "category";
     leaf "category" "Announcements";
     leaf "description" "Text"].

Definition item2 : ET.element :=
  ET.Element "item" None
    [empty "title"; leaf "pubDate" "yesterday"].

Definition item3 : ET.element :=
  ET.Element "item" None [leaf "title" "Undated"; empty "pubDate"].

Definition channel : ET.element :=
  ET.Element "channel" None
    [leaf "title" "DepEd";
     leaf "link" "https://www.deped.gov.ph";
     empty "description";
     item1; item2; item3].

Definition rss : ET.element := ET.Element "rss" None [channel].

Definition ok (s : string) : Response := mkResponse 200 (body s).
Definition not_found : Response := mkResponse 404 (body "Not Found").

(** The primary URL serves the feed. *)
Definition feed : Library :=
  library [(primary_url, ok "<rss>feed</rss>")] [] [("<rss>feed</rss>", rss)].

(** The primary URL answers 404, the alternate one serves the feed. *)
Definition moved : Library :=
  library [(primary_url, not_found); (alternate_url, ok "<rss>feed</rss>")]
    [] [("<rss>feed</rss>", rss)].

(** The primary URL answers 404, the alternate one serves a document
    that is XML and has no channel. *)
Definition no_channel : Library :=
  library [(primary_url, not_found); (alternate_url, ok "<rss/>")]
    [] [("<rss/>", ET.Element "rss" None [])].

(** The feed is served with a stray byte in front of it, which the
    parser rejects; the clean-up drops it. *)
Definition stray : bytes := Byte.xff :: body "<rss>feed</rss>".

Definition dirty : Library :=
  library [(primary_url, mkResponse 200 stray)] []
    [("<rss>feed</rss>", rss)].

(** Nothing that is served parses, cleaned or not. *)
Definition broken : Library :=
  library [(primary_url, ok "<rss>")] [] [].

End Fixture.

(** ** Further observations *)

(** Where a post of the front page comes from: a row of the page, its
    title line, the first anchor of the title line, and its link. *)
Definition post_of (soup : Bs4.node) (link_tag : Bs4.node) (e : pyval)
  : Prop :=
  exists row title_span link,
    In row (Bs4.find_all "tr" (Some "athing") soup)
    /\ Bs4.find "span" (Some "titleline") row = Some title_span
    /\ Bs4.find "a" None title_span = Some link_tag
    /\ Bs4.attr "href" link_tag = Some link
    /\ e = entry (Bs4.get_text_strip link_tag) link.

(** Does [c] occur in [s]? *)
Fixpoint has_char (c : ascii) (s : string) : bool :=
  match s with
  | EmptyString => false
  | String c' s' => Ascii.eqb c' c || has_char c s'
  end.

(** Is the first, or the last, character of [s] a space character? *)
Definition starts_with_space (s : string) : bool :=
  match s with
  | String c _ => PyStr.isspace c
  | EmptyString => false
  end.

Fixpoint ends_with_space (s : string) : bool :=
  match s with
  | EmptyString => false
  | String c EmptyString => PyStr.isspace c
  | String _ s' => ends_with_space s'
  end.

(** A string that neither starts nor ends with a space character. *)
Definition trimmed (s : string) : Prop :=
  starts_with_space s = false /\ ends_with_space s = false.

(** The bodies handed to the XML parser along a trace, in order. *)
Fixpoint parse_attempts (t : trace) : list bytes :=
  match t with
  | [] => []
  | EvGet _ :: t' => parse_attempts t'
  | EvParseXML b :: t' => b :: parse_attempts t'
  end.

(** The texts of the [category] children of an item that are neither
    [None] nor empty, in document order. *)
Definition category_texts (item : ET.element) : list string :=
  flat_map
    (fun category =>
       match ET.text category with
       | Some s => if String.eqb s "" then [] else [s]
       | None => []
       end)
    (ET.findall "category" item).

(** The messages of the error envelopes of [get_deped_rss_feed]. *)
Definition feed_error_message (message : string) : Prop :=
  (exists r2,
     status_code r2 <> 200%Z
     /\ message = ("Failed to fetch RSS feed. Status code: "
                   ++ PyStr.of_int (status_code r2))%string)
  \/ (exists e,
        is_ParseError e = true
        /\ message = ("Failed to parse RSS feed XML: " ++ exn_str e)%string)
  \/ message = "Invalid RSS feed format (no channel element found)"
  \/ (exists e,
        message = ("Error when trying to parse DepEd RSS feed: "
                   ++ exn_str e)%string).

(** More test doubles. *)
Module Cases.

(** Both pages are served under an error status. *)
Definition error_pages : Library :=
  Fixture.library
    [(hackernews_url, mkResponse 404 (Fixture.body "front page"));
     (trending_url, mkResponse 500 (Fixture.body "trending page"))]
    [("front page", Fixture.front_page);
     ("trending page", Fixture.trending_page)]
    [].

(** Pages without a post row and without a repository card. *)
Definition blank_page : Bs4.node :=
  Bs4.Tag "[document]" [] []
    [Bs4.Tag "p" ["athing"] [] [Bs4.NavigableString "Nothing here"];
     Bs4.Tag "article" ["Box"] [] []].

Definition blank : Library :=
  Fixture.library
    [(hackernews_url, Fixture.ok "blank"); (trending_url, Fixture.ok "blank")]
    [("blank", blank_page)] [].

(** The parser fails with something that is not a [ParseError]. *)
Definition bad_argument : pyexn := PyExn ValueError "embedded null byte".

Definition choking : Library :=
  {| network := Fixture.serve [(primary_url, Fixture.ok "<rss>")];
     html_parser := fun _ => inl bad_argument;
     fromstring := fun _ => inl bad_argument;
     decode_utf8_ignore := Fixture.drop_non_ascii;
     encode_utf8 := list_byte_of_string;
     datetime := string;
     strptime := fun _ _ => inl bad_argument;
     strftime := fun d _ => d |}.

(** The feed is served with the channel as the root of the document. *)
Definition bare_channel : Library :=
  Fixture.library [(primary_url, Fixture.ok "<channel/>")] []
    [("<channel/>", Fixture.channel)].

(** An item whose creator sits inside a nested element, and one with a
    creator element that is not in the Dublin Core namespace. *)
Definition nested_creator : ET.element :=
  ET.Element "item" None
    [ET.Element "meta" None [Fixture.leaf dc_creator "editor"]].

Definition plain_creator : ET.element :=
  ET.Element "item" None [Fixture.leaf "creator" "someone"].

Definition creators_channel : ET.element :=
  ET.Element "channel" None [nested_creator; plain_creator].

Definition creators : Library :=
  Fixture.library [(primary_url, Fixture.ok "<rss>creators</rss>")] []
    [("<rss>creators</rss>", ET.Element "rss" None [creators_channel])].

(** A document with two channels, after an element that is not one. *)
Definition second_channel : ET.element :=
  ET.Element "channel" None [Fixture.leaf "title" "Second"].

Definition two_channels : Library :=
  Fixture.library [(primary_url, Fixture.ok "<rss>two</rss>")] []
    [("<rss>two</rss>",
      ET.Element "rss" None
        [Fixture.leaf "generator" "x"; Fixture.channel; second_channel])].

(** The feed is served with a declaration naming an encoding the
    parser does not know: the parse raises a [LookupError], which is
    not a [ParseError]. *)
Definition unknown_encoding : pyexn :=
  PyExn OtherException "unknown encoding: bogus".

Definition misdeclared_body : bytes :=
  Fixture.body "<?xml version='1.0' encoding='bogus'?><rss/>".

Definition misdeclared : Library :=
  {| network := Fixture.serve [(primary_url, mkResponse 200 misdeclared_body)];
     html_parser := fun _ => inl unknown_encoding;
     fromstring := fun _ => inl unknown_encoding;
     decode_utf8_ignore := Fixture.drop_non_ascii;
     encode_utf8 := list_byte_of_string;
     datetime := string;
     strptime := fun _ _ => inl bad_argument;
     strftime := fun d _ => d |}.

End Cases.

(** * Properties *)

(** ** Strings and slices *)

Lemma append_assoc (s1 s2 s3 : string) :
  ((s1 ++ s2) ++ s3 = s1 ++ (s2 ++ s3))%string.
Proof. induction s1; simpl; congruence. Qed.

Lemma replace_app old new s1 s2 :
  PyStr.replace old new (s1 ++ s2)
  = (PyStr.replace old new s1 ++ PyStr.replace old new s2)%string.
Proof.
  induction s1 as [|c s1 IH]; simpl; [reflexivity|].
  rewrite IH. destruct (Ascii.eqb c old); simpl; [|reflexivity].
  now rewrite append_assoc.
Qed.

(** Joining with a space and deleting the spaces deletes the spaces of
    the concatenation. *)
Lemma replace_join_space parts :
  PyStr.replace PyStr.space "" (PyStr.join " " parts)
  = PyStr.replace PyStr.space "" (PyStr.join "" parts).
Proof.
  induction parts as [|p [|q ps] IH]; try reflexivity.
  change (PyStr.join " " (p :: q :: ps))
    with (p ++ " " ++ PyStr.join " " (q :: ps))%string.
  change (PyStr.join "" (p :: q :: ps))
    with (p ++ "" ++ PyStr.join "" (q :: ps))%string.
  rewrite !replace_app, IH. reflexivity.
Qed.

Lemma slice_to_nonneg {A} (k : Z) (l : list A) :
  (0 <= k)%Z -> slice_to (Some k) l = firstn (Z.to_nat k) l.
Proof.
  intros Hk. unfold slice_to.
  destruct (Z.ltb_spec k 0) as [?|_]; [lia|].
  destruct (Z.le_ge_cases k (Z.of_nat (List.length l))) as [Hle|Hge].
  - now rewrite Z.min_l.
  - rewrite Z.min_r, Nat2Z.id by assumption.
    rewrite firstn_all. symmetry. apply firstn_all2. lia.
Qed.

Lemma slice_to_neg {A} (k : Z) (l : list A) :
  (k < 0)%Z ->
  slice_to (Some k) l = firstn (List.length l - Z.to_nat (- k)) l.
Proof.
  intros Hk. unfold slice_to.
  destruct (Z.ltb_spec k 0) as [_|?]; [|lia].
  f_equal. lia.
Qed.

Lemma slice_to_incl {A} (stop : option Z) (l : list A) (x : A) :
  In x (slice_to stop l) -> In x l.
Proof.
  destruct stop as [k|]; simpl; [|auto].
  unfold slice_to. intros H.
  rewrite <- (firstn_skipn (Z.to_nat
    (if (k <? 0)%Z then Z.max (k + Z.of_nat (List.length l)) 0
     else Z.min k (Z.of_nat (List.length l)))) l).
  apply in_or_app. now left.
Qed.

(** ** Envelopes *)

Lemma envelope_error keys message : envelope keys (error message).
Proof. right. split; [reflexivity|]. now exists message. Qed.

Ltac envelope_success :=
  left; split; [reflexivity | repeat constructor; eexists; reflexivity].


(** ** The two scrapers, run *)

Section Runs.

Variable L : Library.

Lemma get_hackernews_posts_run (n : option Z) (t : trace) :
  call (get_hackernews_posts L n) t =
  (inr match network L t hackernews_url with
       | inl e =>
           error ("Error when trying to get hackernews posts: " ++ exn_str e)
       | inr res =>
           match html_parser L (content res) with
           | inl e =>
               error ("Error when trying to get hackernews posts: "
                      ++ exn_str e)
           | inr soup =>
               success
                 [("posts",
                   VList (slice_to n
                            (hackernews_rows
                               (Bs4.find_all "tr" (Some "athing") soup) [])))]
           end
       end,
   t ++ [EvGet hackernews_url]).
Proof.
  unfold call, get_hackernews_posts, try_except, bind, requests_get,
    BeautifulSoup, lift, hackernews_url.
  destruct (network L t _) as [e|res]; [reflexivity|].
  cbn [ret raise].
  destruct (html_parser L (content res)) as [e|soup]; [reflexivity|].
  destruct n; reflexivity.
Qed.

Lemma get_github_trending_repos_run (n : option Z) (t : trace) :
  call (get_github_trending_repos L n) t =
  (inr match network L t trending_url with
       | inl e =>
           error ("Error when trying to get trending repos: " ++ exn_str e)
       | inr res =>
           match html_parser L (content res) with
           | inl e =>
               error ("Error when trying to get trending repos: "
                      ++ exn_str e)
           | inr soup =>
               success
                 [("repos",
                   VList (slice_to n
                            (trending_articles
                               (Bs4.find_all "article" (Some "Box-row") soup)
                               [])))]
           end
       end,
   t ++ [EvGet trending_url]).
Proof.
  unfold call, get_github_trending_repos, try_except, bind, requests_get,
    BeautifulSoup, lift, trending_url.
  destruct (network L t _) as [e|res]; [reflexivity|].
  cbn [ret raise].
  destruct (html_parser L (content res)) as [e|soup]; [reflexivity|].
  destruct n; reflexivity.
Qed.

(** ** The feed, stage by stage *)

Lemma feed_item_run (item : ET.element) (t : trace) :
  feed_item L item t = (Normal (item_record L item), t).
Proof.
  unfold feed_item, item_record, formatted_date_of, try_except, bind,
    datetime_strptime, lift.
  destruct (text_or_empty "pubDate" item) as [s|]; [|reflexivity].
  destruct (strptime L s rfc822); reflexivity.
Qed.

Lemma feed_items_run (elems : list ET.element) (items : list pyval)
  (t : trace) :
  feed_items L elems items t
  = (Normal (items ++ map (item_record L) elems), t).
Proof.
  revert items. induction elems as [|item rest IH]; intros items; simpl.
  - now rewrite app_nil_r.
  - unfold bind. rewrite feed_item_run, IH, <- app_assoc. reflexivity.
Qed.

Lemma read_feed_run (max_items : option Z) (root : ET.element) (t : trace) :
  read_feed L max_items root t =
  (Return
     match ET.find "channel" root with
     | None => error "Invalid RSS feed format (no channel element found)"
     | Some channel =>
         success
           [("feed_info", channel_info channel);
            ("items",
             VList (map (item_record L)
                      (slice_to max_items (ET.findall "item" channel))))]
     end, t).
Proof.
  unfold read_feed. destruct (ET.find "channel" root); [|reflexivity].
  unfold bind. rewrite feed_items_run. reflexivity.
Qed.

(** The body is the three stages in sequence, under the catch-all. *)
Lemma get_deped_rss_feed_stages (max_items : option Z) (t : trace) :
  get_deped_rss_feed L max_items t =
  try_except Exception
    (response <- fetch_response L ;;
     root <- parse_response L response ;;
     read_feed L max_items root)
    (fun e =>
       return_ (error ("Error when trying to parse DepEd RSS feed: "
                       ++ exn_str e))) t.
Proof.
  unfold get_deped_rss_feed, fetch_response, parse_response, read_feed,
    channel_info, try_except, bind.
  destruct (requests_get L primary_url t) as [[r| |] t1]; reflexivity.
Qed.

(** What the fetch does, by the answers of the network. *)
Lemma fetch_response_run (t : trace) :
  fetch_response L t =
  match network L t primary_url with
  | inl e => (Raise e, t ++ [EvGet primary_url])
  | inr r1 =>
      if (status_code r1 =? 200)%Z then
        (Normal r1, t ++ [EvGet primary_url])
      else
        match network L (t ++ [EvGet primary_url]) alternate_url with
        | inl e => (Raise e, t ++ [EvGet primary_url; EvGet alternate_url])
        | inr r2 =>
            if (status_code r2 =? 200)%Z then
              (Normal r2, t ++ [EvGet primary_url; EvGet alternate_url])
            else
              (Return
                 (error ("Failed to fetch RSS feed. Status code: "
                         ++ PyStr.of_int (status_code r2))),
               t ++ [EvGet primary_url; EvGet alternate_url])
        end
  end.
Proof.
  unfold fetch_response, bind, requests_get, lift.
  destruct (network L t primary_url) as [e|r1]; [reflexivity|].
  cbn [ret]. destruct (status_code r1 =? 200)%Z; [reflexivity|].
  cbn [negb]. rewrite <- app_assoc. cbn [app].
  destruct (network L _ alternate_url) as [e|r2]; [reflexivity|].
  cbn [ret]. destruct (status_code r2 =? 200)%Z; reflexivity.
Qed.

(** What the parse does, by the answers of the parser. *)
Lemma parse_response_run (response : Response) (t : trace) :
  let cleaned := encode_utf8 L (decode_utf8_ignore L (content response)) in
  parse_response L response t =
  match fromstring L (content response) with
  | inr root => (Normal root, t ++ [EvParseXML (content response)])
  | inl e1 =>
      if is_ParseError e1 then
        (match fromstring L cleaned with
         | inr root => Normal root
         | inl e2 =>
             if is_ParseError e2 then
               Return (error ("Failed to parse RSS feed XML: " ++ exn_str e2))
             else Raise e2
         end,
         t ++ [EvParseXML (content response); EvParseXML cleaned])
      else (Raise e1, t ++ [EvParseXML (content response)])
  end.
Proof.
  unfold parse_response, try_except, ET_fromstring, lift.
  destruct (fromstring L (content response)) as [e1|root]; [|reflexivity].
  cbn [raise]. destruct (is_ParseError e1); [|reflexivity].
  rewrite <- app_assoc. cbn [app].
  destruct (fromstring L _) as [e2|root]; [|reflexivity].
  cbn [raise]. destruct (is_ParseError e2); reflexivity.
Qed.

(** A [return] of the fetch or of the parse returns an error envelope. *)
Lemma fetch_response_return (t t1 : trace) (v : pyval) :
  fetch_response L t = (Return v, t1) -> exists message, v = error message.
Proof.
  rewrite fetch_response_run.
  destruct (network L t primary_url) as [e|r1]; [discriminate|].
  destruct (status_code r1 =? 200)%Z; [discriminate|].
  destruct (network L _ alternate_url) as [e|r2]; [discriminate|].
  destruct (status_code r2 =? 200)%Z; [discriminate|].
  intros [= <- _]. eexists. reflexivity.
Qed.

Lemma parse_response_return (r : Response) (t t1 : trace) (v : pyval) :
  parse_response L r t = (Return v, t1) -> exists message, v = error message.
Proof.
  pose proof (parse_response_run r t) as Hrun. cbv zeta in Hrun.
  rewrite Hrun. clear Hrun.
  destruct (fromstring L (content r)) as [e1|root]; [|discriminate].
  destruct (is_ParseError e1); [|discriminate].
  destruct (fromstring L _) as [e2|root]; [|discriminate].
  destruct (is_ParseError e2); [|discriminate].
  intros [= <- _]. eexists. reflexivity.
Qed.

(** The call, by the outcome of its stages. *)
Lemma get_deped_rss_feed_run (max_items : option Z) (t : trace) :
  call (get_deped_rss_feed L max_items) t =
  let caught e :=
    error ("Error when trying to parse DepEd RSS feed: " ++ exn_str e) in
  match fetch_response L t with
  | (Raise e, t1) => (inr (caught e), t1)
  | (Return v, t1) => (inr v, t1)
  | (Normal response, t1) =>
      match parse_response L response t1 with
      | (Raise e, t2) => (inr (caught e), t2)
      | (Return v, t2) => (inr v, t2)
      | (Normal root, t2) =>
          (inr match ET.find "channel" root with
               | None =>
                   error "Invalid RSS feed format (no channel element found)"
               | Some channel =>
                   success
                     [("feed_info", channel_info channel);
                      ("items",
                       VList (map (item_record L)
                                (slice_to max_items
                                   (ET.findall "item" channel))))]
               end, t2)
      end
  end.
Proof.
  unfold call. rewrite get_deped_rss_feed_stages.
  unfold try_except, bind.
  destruct (fetch_response L t) as [[response| |] t1]; try reflexivity.
  destruct (parse_response L response t1) as [[root| |] t2];
    try reflexivity.
  rewrite read_feed_run. reflexivity.
Qed.

(** A call whose fetch and parse yield a tree returns what the
    extraction returns on it. *)
Lemma get_deped_rss_feed_parsed (max_items : option Z) (t t2 : trace)
  (root : ET.element) :
  parsed_feed L t = Some (root, t2) ->
  call (get_deped_rss_feed L max_items) t =
  (inr match ET.find "channel" root with
       | None => error "Invalid RSS feed format (no channel element found)"
       | Some channel =>
           success
             [("feed_info", channel_info channel);
              ("items",
               VList (map (item_record L)
                        (slice_to max_items (ET.findall "item" channel))))]
       end, t2).
Proof.
  unfold parsed_feed. rewrite get_deped_rss_feed_run. cbv zeta.
  destruct (fetch_response L t) as [[response| |] t1]; try discriminate.
  destruct (parse_response L response t1) as [[root'| |] t2'];
    try discriminate.
  now intros [= -> ->].
Qed.

End Runs.

(** C1. Whatever the network and the parsers answer, an exception
    included, and whatever the count, each of the three extractors
    returns: no exception leaves the call, and the value returned is a
    dict whose [status] is ["success"], with the payload keys of the
    extractor, or ["error"], with an [error_message] that is a string. *)
Theorem extractors_return_envelope (L : Library) (n : option Z) (t : trace) :
  (exists v t', call (get_hackernews_posts L n) t = (inr v, t')
                /\ envelope ["posts"] v)
  /\ (exists v t', call (get_github_trending_repos L n) t = (inr v, t')
                   /\ envelope ["repos"] v)
  /\ (exists v t', call (get_deped_rss_feed L n) t = (inr v, t')
                   /\ envelope ["feed_info"; "items"] v).
Proof.
  split; [|split].
  - rewrite get_hackernews_posts_run. eexists _, _. split; [reflexivity|].
    destruct (network L t hackernews_url) as [e|res];
      [apply envelope_error|].
    destruct (html_parser L (content res)) as [e|soup];
      [apply envelope_error | envelope_success].
  - rewrite get_github_trending_repos_run. eexists _, _.
    split; [reflexivity|].
    destruct (network L t trending_url) as [e|res];
      [apply envelope_error|].
    destruct (html_parser L (content res)) as [e|soup];
      [apply envelope_error | envelope_success].
  - rewrite get_deped_rss_feed_run. cbv zeta.
    destruct (fetch_response L t) as [[response|v|e] t1] eqn:Hfetch.
    + destruct (parse_response L response t1) as [[root|v|e] t2] eqn:Hparse.
      * eexists _, _. split; [reflexivity|].
        destruct (ET.find "channel" root);
          [envelope_success | apply envelope_error].
      * apply parse_response_return in Hparse as [message ->].
        eexists _, _. split; [reflexivity | apply envelope_error].
      * eexists _, _. split; [reflexivity | apply envelope_error].
    + apply fetch_response_return in Hfetch as [message ->].
      eexists _, _. split; [reflexivity | apply envelope_error].
    + eexists _, _. split; [reflexivity | apply envelope_error].
Qed.

(** ** Limits *)

Lemma posts_of_page (L : Library) (n : option Z) (t : trace)
  (soup : Bs4.node) :
  parsed_page L hackernews_url t = Some soup ->
  call (get_hackernews_posts L n) t
  = (inr (success [("posts", VList (slice_to n (all_posts soup)))]),
     t ++ [EvGet hackernews_url]).
Proof.
  unfold parsed_page. rewrite get_hackernews_posts_run.
  destruct (network L t hackernews_url) as [e|res]; [discriminate|].
  destruct (html_parser L (content res)) as [e|soup']; [discriminate|].
  now intros [= ->].
Qed.

Lemma repos_of_page (L : Library) (n : option Z) (t : trace)
  (soup : Bs4.node) :
  parsed_page L trending_url t = Some soup ->
  call (get_github_trending_repos L n) t
  = (inr (success [("repos", VList (slice_to n (all_repos soup)))]),
     t ++ [EvGet trending_url]).
Proof.
  unfold parsed_page. rewrite get_github_trending_repos_run.
  destruct (network L t trending_url) as [e|res]; [discriminate|].
  destruct (html_parser L (content res)) as [e|soup']; [discriminate|].
  now intros [= ->].
Qed.

(** C2. With a limit [k >= 0], the list returned by
    [get_hackernews_posts] and by [get_github_trending_repos] is the
    first [min(k, total)] entries of the whole extraction, in page
    order; with [None] it is the whole extraction. *)
Theorem limit_takes_prefix (L : Library) (t : trace) (k : Z) :
  (0 <= k)%Z ->
  (forall soup, parsed_page L hackernews_url t = Some soup ->
     let full := all_posts soup in
     let shown := firstn (Z.to_nat k) full in
     call (get_hackernews_posts L None) t
     = (inr (success [("posts", VList full)]), t ++ [EvGet hackernews_url])
     /\ call (get_hackernews_posts L (Some k)) t
        = (inr (success [("posts", VList shown)]),
           t ++ [EvGet hackernews_url])
     /\ Z.of_nat (List.length shown) = Z.min k (Z.of_nat (List.length full)))
  /\
  (forall soup, parsed_page L trending_url t = Some soup ->
     let full := all_repos soup in
     let shown := firstn (Z.to_nat k) full in
     call (get_github_trending_repos L None) t
     = (inr (success [("repos", VList full)]), t ++ [EvGet trending_url])
     /\ call (get_github_trending_repos L (Some k)) t
        = (inr (success [("repos", VList shown)]), t ++ [EvGet trending_url])
     /\ Z.of_nat (List.length shown) = Z.min k (Z.of_nat (List.length full))).
Proof.
  intros Hk. split; intros soup Hpage; cbv zeta.
  - rewrite !(posts_of_page _ _ _ _ Hpage), slice_to_nonneg by assumption.
    repeat split. rewrite length_firstn. lia.
  - rewrite !(repos_of_page _ _ _ _ Hpage), slice_to_nonneg by assumption.
    repeat split. rewrite length_firstn. lia.
Qed.

Lemma limit_takes_prefix_witness :
  (0 <= 2)%Z
  /\ call (get_hackernews_posts Fixture.scrapers (Some 2%Z)) []
     = (inr (success
               [("posts",
                 VList [entry "First" "https://example.org/1";
                        entry "Second" "https://example.org/2"])]),
        [EvGet hackernews_url])
  /\ call (get_github_trending_repos Fixture.scrapers (Some 2%Z)) []
     = (inr (success
               [("repos",
                 VList [entry "owner/repo" "https://github.com/owner/repo";
                        entry "rocq-prover/rocq"
                          "https://github.com/rocq-prover/rocq"])]),
        [EvGet trending_url]).
Proof.
  assert (Hk : (0 <= 2)%Z) by lia.
  pose proof (limit_takes_prefix Fixture.scrapers [] 2 Hk) as [Hposts Hrepos].
  split; [exact Hk|]. split.
  - exact (proj1 (proj2 (Hposts Fixture.front_page eq_refl))).
  - exact (proj1 (proj2 (Hrepos Fixture.trending_page eq_refl))).
Defined.

(** C8. With a negative count [k], the list returned by
    [get_hackernews_posts] and by [get_github_trending_repos] is the
    whole extraction without its last [|k|] entries, under a
    ["success"] status: it has [total - |k|] entries (none when
    [|k| >= total]), and is not empty as long as [|k| < total]. *)
Theorem negative_limit_drops_last (L : Library) (t : trace) (k : Z) :
  (k < 0)%Z ->
  (forall soup, parsed_page L hackernews_url t = Some soup ->
     let full := all_posts soup in
     exists shown dropped,
       call (get_hackernews_posts L (Some k)) t
       = (inr (success [("posts", VList shown)]), t ++ [EvGet hackernews_url])
       /\ full = shown ++ dropped
       /\ Z.of_nat (List.length dropped)
          = Z.min (- k) (Z.of_nat (List.length full))
       /\ ((- k < Z.of_nat (List.length full))%Z -> shown <> []))
  /\
  (forall soup, parsed_page L trending_url t = Some soup ->
     let full := all_repos soup in
     exists shown dropped,
       call (get_github_trending_repos L (Some k)) t
       = (inr (success [("repos", VList shown)]), t ++ [EvGet trending_url])
       /\ full = shown ++ dropped
       /\ Z.of_nat (List.length dropped)
          = Z.min (- k) (Z.of_nat (List.length full))
       /\ ((- k < Z.of_nat (List.length full))%Z -> shown <> [])).
Proof.
  intros Hk.
  assert (Hcut : forall (l : list pyval),
    let n := (List.length l - Z.to_nat (- k))%nat in
    l = firstn n l ++ skipn n l
    /\ Z.of_nat (List.length (skipn n l))
       = Z.min (- k) (Z.of_nat (List.length l))
    /\ ((- k < Z.of_nat (List.length l))%Z -> firstn n l <> [])).
  { intros l n. split; [symmetry; apply firstn_skipn|]. split.
    - rewrite length_skipn. lia.
    - intros Hlt Hnil. apply (f_equal (@List.length _)) in Hnil.
      rewrite length_firstn in Hnil. simpl in Hnil. lia. }
  split; intros soup Hpage; cbv zeta.
  - rewrite (posts_of_page _ _ _ _ Hpage), slice_to_neg by assumption.
    eexists _, _. split; [reflexivity|]. apply Hcut.
  - rewrite (repos_of_page _ _ _ _ Hpage), slice_to_neg by assumption.
    eexists _, _. split; [reflexivity|]. apply Hcut.
Qed.

Lemma negative_limit_drops_last_witness :
  (-1 < 0)%Z
  /\ exists shown dropped,
       call (get_hackernews_posts Fixture.scrapers (Some (-1)%Z)) []
       = (inr (success [("posts", VList shown)]), [EvGet hackernews_url])
       /\ all_posts Fixture.front_page = shown ++ dropped
       /\ Z.of_nat (List.length dropped)
          = Z.min (- -1) (Z.of_nat (List.length (all_posts Fixture.front_page)))
       /\ ((- -1 < Z.of_nat (List.length (all_posts Fixture.front_page)))%Z
           -> shown <> []).
Proof.
  assert (Hk : (-1 < 0)%Z) by lia.
  split; [exact Hk|].
  exact (proj1 (negative_limit_drops_last Fixture.scrapers [] (-1) Hk)
           Fixture.front_page eq_refl).
Defined.

(** ** The retry of the feed *)

Lemma requested_app (t1 t2 : trace) :
  requested (t1 ++ t2) = requested t1 ++ requested t2.
Proof.
  induction t1 as [|[url|b] t1 IH]; simpl; [reflexivity| |assumption].
  now rewrite IH.
Qed.

(** The parse sends no request. *)
Lemma parse_response_requested (L : Library) (r : Response) (t : trace) :
  requested (snd (parse_response L r t)) = requested t.
Proof.
  pose proof (parse_response_run L r t) as Hrun. cbv zeta in Hrun.
  rewrite Hrun. clear Hrun.
  destruct (fromstring L (content r)) as [e1|root];
    [destruct (is_ParseError e1)|];
    cbn [snd]; rewrite requested_app; simpl; apply app_nil_r.
Qed.

(** C3, as stated, fails: the primary URL answers 404, the alternate
    URL answers 200 with a body that is XML (the parser accepts it), and
    the call returns an error envelope, for the document has no
    channel. *)
Lemma retry_accepts_xml_without_channel :
  let L := Fixture.no_channel in
  network L [] primary_url = inr (mkResponse 404 (Fixture.body "Not Found"))
  /\ network L [EvGet primary_url] alternate_url
     = inr (mkResponse 200 (Fixture.body "<rss/>"))
  /\ fromstring L (Fixture.body "<rss/>") = inr (ET.Element "rss" None [])
  /\ call (get_deped_rss_feed L (Some 10%Z)) []
     = (inr (error "Invalid RSS feed format (no channel element found)"),
        [EvGet primary_url; EvGet alternate_url;
         EvParseXML (Fixture.body "<rss/>")])
  /\ ~ (exists v t',
          call (get_deped_rss_feed L (Some 10%Z)) [] = (inr v, t')
          /\ dict_get "status" v = Some (VStr "success")).
Proof.
  cbv zeta. repeat split.
  intros (v & t' & Hcall & Hstatus).
  vm_compute in Hcall. injection Hcall as <- _. discriminate Hstatus.
Qed.

(** C3, amended. When the primary URL answers with a status other than
    200, the call sends exactly one more request, to the alternate URL.
    If that one answers with a status other than 200, the call returns
    the error envelope naming that status; if it answers 200 with a body
    that parses to a tree with a channel, the call returns the
    ["success"] envelope of that channel. *)
Theorem retry_once (L : Library) (t : trace) (max_items : option Z)
  (r1 : Response) :
  network L t primary_url = inr r1 ->
  status_code r1 <> 200%Z ->
  requested (snd (call (get_deped_rss_feed L max_items) t))
  = requested t ++ [primary_url; alternate_url]
  /\
  forall r2, network L (t ++ [EvGet primary_url]) alternate_url = inr r2 ->
    let t2 := t ++ [EvGet primary_url; EvGet alternate_url] in
    (status_code r2 <> 200%Z ->
     call (get_deped_rss_feed L max_items) t
     = (inr (error ("Failed to fetch RSS feed. Status code: "
                    ++ PyStr.of_int (status_code r2))), t2))
    /\
    (status_code r2 = 200%Z ->
     forall root channel,
       fromstring L (content r2) = inr root ->
       ET.find "channel" root = Some channel ->
       call (get_deped_rss_feed L max_items) t
       = (inr (success
                 [("feed_info", channel_info channel);
                  ("items",
                   VList (map (item_record L)
                            (slice_to max_items
                               (ET.findall "item" channel))))]),
          t2 ++ [EvParseXML (content r2)])).
Proof.
  intros Hnet Hstatus.
  apply Z.eqb_neq in Hstatus.
  rewrite get_deped_rss_feed_run, fetch_response_run, Hnet, Hstatus.
  cbv zeta. split.
  - destruct (network L _ alternate_url) as [e|r2].
    { cbn [snd]. rewrite requested_app. reflexivity. }
    destruct (status_code r2 =? 200)%Z.
    + pose proof (parse_response_requested L r2
        (t ++ [EvGet primary_url; EvGet alternate_url])) as Hreq.
      destruct (parse_response L r2 _) as [[root|v|e] t2];
        cbn [snd] in *; rewrite Hreq, requested_app; reflexivity.
    + cbn [snd]. rewrite requested_app. reflexivity.
  - intros r2 Hnet2. rewrite Hnet2. split.
    + intros Hstatus2. apply Z.eqb_neq in Hstatus2. now rewrite Hstatus2.
    + intros Hstatus2 root channel Hparse Hchannel.
      apply Z.eqb_eq in Hstatus2. rewrite Hstatus2.
      pose proof (parse_response_run L r2
        (t ++ [EvGet primary_url; EvGet alternate_url])) as Hrun.
      cbv zeta in Hrun. rewrite Hrun, Hparse, Hchannel. reflexivity.
Qed.

Lemma retry_once_witness :
  network Fixture.moved [] primary_url = inr Fixture.not_found
  /\ status_code Fixture.not_found <> 200%Z
  /\ requested (snd (call (get_deped_rss_feed Fixture.moved (Some 1%Z)) []))
     = [primary_url; alternate_url]
  /\ call (get_deped_rss_feed Fixture.moved (Some 1%Z)) []
     = (inr (success
               [("feed_info", channel_info Fixture.channel);
                ("items", VList [item_record Fixture.moved Fixture.item1])]),
        [EvGet primary_url; EvGet alternate_url;
         EvParseXML (Fixture.body "<rss>feed</rss>")]).
Proof.
  assert (Hnet : network Fixture.moved [] primary_url = inr Fixture.not_found)
    by reflexivity.
  assert (Hstatus : status_code Fixture.not_found <> 200%Z)
    by (simpl; lia).
  pose proof (retry_once Fixture.moved [] (Some 1%Z) Fixture.not_found
                Hnet Hstatus) as [Hone Hretry].
  split; [exact Hnet|]. split; [exact Hstatus|]. split; [exact Hone|].
  exact (proj2 (Hretry (Fixture.ok "<rss>feed</rss>") eq_refl) eq_refl
           Fixture.rss Fixture.channel eq_refl eq_refl).
Defined.

(** ** The recovery pass of the parse *)

(** C7, as stated, fails: the response is answered 200 and its first
    parse fails with an exception that is not a [ParseError]; the body
    is parsed once and never again, so there is no recovery pass, and
    the call returns the catch-all error envelope. *)
Lemma parse_failure_of_another_class_is_not_recovered :
  let L := Cases.misdeclared in
  let response := mkResponse 200 Cases.misdeclared_body in
  fetch_response L [] = (Normal response, [EvGet primary_url])
  /\ fromstring L (content response) = inl Cases.unknown_encoding
  /\ is_ParseError Cases.unknown_encoding = false
  /\ call (get_deped_rss_feed L (Some 10%Z)) []
     = (inr (error
               "Error when trying to parse DepEd RSS feed: unknown encoding: bogus"),
        [EvGet primary_url; EvParseXML Cases.misdeclared_body])
  /\ parse_attempts (snd (call (get_deped_rss_feed L (Some 10%Z)) []))
     = [Cases.misdeclared_body]
  /\ ~ In (EvParseXML
             (encode_utf8 L (decode_utf8_ignore L (content response))))
         (skipn 2 (snd (call (get_deped_rss_feed L (Some 10%Z)) []))).
Proof. cbv zeta. repeat split. intros []. Qed.

(** C7, amended. When the first parse of the response body fails with a
    [ParseError], the body is decoded as UTF-8 with the invalid
    sequences dropped, encoded again and parsed once more, and nothing
    is parsed after that; if this parse fails too, the call returns an
    error envelope whose message ends with the text of that failure. *)
Theorem parse_recovers_once (L : Library) (t t1 : trace)
  (max_items : option Z) (response : Response) (e1 : pyexn) :
  fetch_response L t = (Normal response, t1) ->
  fromstring L (content response) = inl e1 ->
  is_ParseError e1 = true ->
  let cleaned := encode_utf8 L (decode_utf8_ignore L (content response)) in
  let t2 := t1 ++ [EvParseXML (content response); EvParseXML cleaned] in
  snd (call (get_deped_rss_feed L max_items) t) = t2
  /\ (forall e2, fromstring L cleaned = inl e2 ->
        exists prefix,
          call (get_deped_rss_feed L max_items) t
          = (inr (error (prefix ++ exn_str e2)), t2)
          /\ (is_ParseError e2 = true ->
              prefix = "Failed to parse RSS feed XML: "))
  /\ (forall root, fromstring L cleaned = inr root ->
        parsed_feed L t = Some (root, t2)).
Proof.
  intros Hfetch Hfirst Hclass. cbv zeta.
  pose proof (parse_response_run L response t1) as Hrun. cbv zeta in Hrun.
  rewrite Hfirst, Hclass in Hrun.
  unfold parsed_feed.
  rewrite get_deped_rss_feed_run, Hfetch, Hrun. cbv zeta.
  split; [|split].
  - destruct (fromstring L (encode_utf8 L _)) as [e2|root]; [|reflexivity].
    destruct (is_ParseError e2); reflexivity.
  - intros e2 ->. destruct (is_ParseError e2).
    + eexists. split; [reflexivity|reflexivity].
    + eexists. split; [reflexivity|discriminate].
  - now intros root ->.
Qed.

Lemma parse_recovers_once_witness :
  let L := Fixture.broken in
  let response := Fixture.ok "<rss>" in
  fetch_response L [] = (Normal response, [EvGet primary_url])
  /\ fromstring L (content response) = inl Fixture.syntax_error
  /\ is_ParseError Fixture.syntax_error = true
  /\ call (get_deped_rss_feed L (Some 10%Z)) []
     = (inr (error
               "Failed to parse RSS feed XML: syntax error: line 1, column 0"),
        [EvGet primary_url; EvParseXML (Fixture.body "<rss>");
         EvParseXML (Fixture.body "<rss>")]).
Proof.
  cbv zeta.
  assert (Hfetch : fetch_response Fixture.broken []
                   = (Normal (Fixture.ok "<rss>"), [EvGet primary_url]))
    by reflexivity.
  assert (Hfirst : fromstring Fixture.broken (content (Fixture.ok "<rss>"))
                   = inl Fixture.syntax_error) by reflexivity.
  assert (Hclass : is_ParseError Fixture.syntax_error = true) by reflexivity.
  split; [exact Hfetch|]. split; [exact Hfirst|]. split; [exact Hclass|].
  destruct (proj1 (proj2
    (parse_recovers_once Fixture.broken [] [EvGet primary_url] (Some 10%Z)
       (Fixture.ok "<rss>") Fixture.syntax_error Hfetch Hfirst Hclass))
    Fixture.syntax_error eq_refl) as (prefix & Hcall & Hprefix).
  rewrite (Hprefix eq_refl) in Hcall. exact Hcall.
Defined.

(** ** The records of the feed *)

Lemma feed_of_channel (L : Library) (t t2 : trace) (max_items : option Z)
  (root channel : ET.element) :
  parsed_feed L t = Some (root, t2) ->
  ET.find "channel" root = Some channel ->
  call (get_deped_rss_feed L max_items) t
  = (inr (success
            [("feed_info", channel_info channel);
             ("items",
              VList (map (item_record L)
                       (slice_to max_items (ET.findall "item" channel))))]),
     t2).
Proof.
  intros Hfeed Hchannel.
  rewrite (get_deped_rss_feed_parsed L max_items t t2 root Hfeed), Hchannel.
  reflexivity.
Qed.

Lemma Forall2_map_r {A B} (R : A -> B -> Prop) (f : A -> B) (l : list A) :
  (forall a, In a l -> R a (f a)) -> Forall2 R l (map f l).
Proof.
  induction l as [|a l IH]; intros H; simpl; constructor.
  - apply H. now left.
  - apply IH. intros b Hb. apply H. now right.
Qed.

(** C5. In every record returned by [get_deped_rss_feed],
    [formatted_date] is the ["%B %d, %Y at %I:%M %p"] rendering of the
    date when the item's [pubDate] text parses under
    ["%a, %d %b %Y %H:%M:%S %z"], and is [pub_date] itself when it does
    not. *)
Theorem formatted_date_falls_back (L : Library) (t t2 : trace)
  (max_items : option Z) (root channel : ET.element) :
  parsed_feed L t = Some (root, t2) ->
  ET.find "channel" root = Some channel ->
  exists items,
    call (get_deped_rss_feed L max_items) t
    = (inr (success [("feed_info", channel_info channel);
                     ("items", VList items)]), t2)
    /\ Forall2
         (fun item record =>
            let pub_date := text_or_empty "pubDate" item in
            dict_get "pub_date" record = Some (of_text pub_date)
            /\ (forall s dt,
                  pub_date = Some s ->
                  strptime L s "%a, %d %b %Y %H:%M:%S %z" = inr dt ->
                  dict_get "formatted_date" record
                  = Some (VStr (strftime L dt "%B %d, %Y at %I:%M %p")))
            /\ ((forall s dt,
                   pub_date = Some s ->
                   strptime L s "%a, %d %b %Y %H:%M:%S %z" <> inr dt) ->
                dict_get "formatted_date" record
                = dict_get "pub_date" record))
         (slice_to max_items (ET.findall "item" channel)) items.
Proof.
  intros Hfeed Hchannel.
  rewrite (feed_of_channel L t t2 max_items root channel Hfeed Hchannel).
  eexists. split; [reflexivity|].
  apply Forall2_map_r. intros item _. cbv zeta.
  change (dict_get "pub_date" (item_record L item))
    with (Some (of_text (text_or_empty "pubDate" item))).
  change (dict_get "formatted_date" (item_record L item))
    with (Some (formatted_date_of L (text_or_empty "pubDate" item))).
  unfold formatted_date_of.
  change rfc822 with "%a, %d %b %Y %H:%M:%S %z".
  change nice_date with "%B %d, %Y at %I:%M %p".
  split; [reflexivity|].
  destruct (text_or_empty "pubDate" item) as [s|].
  - destruct (strptime L s _) as [e|dt] eqn:Hparse; split.
    + intros s' dt' [= <-]. rewrite Hparse. discriminate.
    + reflexivity.
    + intros s' dt' [= <-]. rewrite Hparse. now intros [= <-].
    + intros Hfail. exfalso. exact (Hfail s dt eq_refl Hparse).
  - split; [discriminate|reflexivity].
Qed.

Lemma formatted_date_falls_back_witness :
  exists items,
    call (get_deped_rss_feed Fixture.feed (Some 10%Z)) []
    = (inr (success [("feed_info", channel_info Fixture.channel);
                     ("items", VList items)]),
       [EvGet primary_url; EvParseXML (Fixture.body "<rss>feed</rss>")])
    /\ map (dict_get "pub_date") items
       = [Some (VStr "Mon, 05 May 2025 08:30:00 +0800");
          Some (VStr "yesterday"); Some VNone]
    /\ map (dict_get "formatted_date") items
       = [Some (VStr "May 05, 2025 at 08:30 AM");
          Some (VStr "yesterday"); Some VNone].
Proof.
  destruct (formatted_date_falls_back Fixture.feed []
              [EvGet primary_url; EvParseXML (Fixture.body "<rss>feed</rss>")]
              (Some 10%Z) Fixture.rss Fixture.channel eq_refl eq_refl)
    as (items & Hcall & _).
  exists items. split; [exact Hcall|].
  vm_compute in Hcall. injection Hcall as <-. split; reflexivity.
Defined.

Lemma channel_info_field (channel : ET.element) :
  Forall (fun '(field, name) =>
            dict_get field (channel_info channel)
            = Some (of_text (text_or_empty name channel)))
    channel_fields.
Proof. repeat constructor. Qed.

Lemma item_record_field (L : Library) (item : ET.element) :
  Forall (fun '(field, name) =>
            dict_get field (item_record L item)
            = Some (of_text (text_or_empty name item)))
    item_fields.
Proof. repeat constructor. Qed.

Lemma text_or_empty_absent (name : string) (e : ET.element) :
  ET.find name e = None -> text_or_empty name e = Some "".
Proof. unfold text_or_empty. now intros ->. Qed.

Lemma text_or_empty_present (name : string) (e child : ET.element) :
  ET.find name e = Some child -> text_or_empty name e = ET.text child.
Proof. unfold text_or_empty. now intros ->. Qed.

(** C6. When the parsed feed has a channel, the call returns a
    ["success"] envelope, and each of the four fields of [feed_info]
    whose element is absent from the channel is the empty string. *)
Theorem missing_channel_field_is_empty (L : Library) (t t2 : trace)
  (max_items : option Z) (root channel : ET.element) :
  parsed_feed L t = Some (root, t2) ->
  ET.find "channel" root = Some channel ->
  exists feed_info items,
    call (get_deped_rss_feed L max_items) t
    = (inr (VDict [("status", VStr "success"); ("feed_info", feed_info);
                   ("items", items)]), t2)
    /\ (ET.find "title" channel = None ->
        dict_get "title" feed_info = Some (VStr ""))
    /\ (ET.find "link" channel = None ->
        dict_get "link" feed_info = Some (VStr ""))
    /\ (ET.find "description" channel = None ->
        dict_get "description" feed_info = Some (VStr ""))
    /\ (ET.find "lastBuildDate" channel = None ->
        dict_get "last_build_date" feed_info = Some (VStr "")).
Proof.
  intros Hfeed Hchannel.
  rewrite (feed_of_channel L t t2 max_items root channel Hfeed Hchannel).
  eexists _, _. split; [reflexivity|].
  pose proof (proj1 (Forall_forall _ _) (channel_info_field channel))
    as Hfields.
  repeat split; intros Habsent.
  - rewrite (Hfields ("title", "title")) by (simpl; auto).
    now rewrite (text_or_empty_absent _ _ Habsent).
  - rewrite (Hfields ("link", "link")) by (simpl; auto).
    now rewrite (text_or_empty_absent _ _ Habsent).
  - rewrite (Hfields ("description", "description")) by (simpl; auto).
    now rewrite (text_or_empty_absent _ _ Habsent).
  - rewrite (Hfields ("last_build_date", "lastBuildDate")) by (simpl; auto).
    now rewrite (text_or_empty_absent _ _ Habsent).
Qed.

Lemma missing_channel_field_is_empty_witness :
  ET.find "lastBuildDate" Fixture.channel = None
  /\ exists feed_info items,
       call (get_deped_rss_feed Fixture.feed (Some 10%Z)) []
       = (inr (VDict [("status", VStr "success"); ("feed_info", feed_info);
                      ("items", items)]),
          [EvGet primary_url; EvParseXML (Fixture.body "<rss>feed</rss>")])
       /\ dict_get "last_build_date" feed_info = Some (VStr "").
Proof.
  split; [reflexivity|].
  destruct (missing_channel_field_is_empty Fixture.feed []
              [EvGet primary_url; EvParseXML (Fixture.body "<rss>feed</rss>")]
              (Some 10%Z) Fixture.rss Fixture.channel eq_refl eq_refl)
    as (feed_info & items & Hcall & _ & _ & _ & Hbuild).
  exists feed_info, items. split; [exact Hcall|]. exact (Hbuild eq_refl).
Defined.

(** C9. A text field of [feed_info] or of an item record is the text
    of its element whenever the element is present: [None] when the
    element is empty, not the empty string. It is the empty string when
    the element is absent. *)
Theorem empty_element_gives_none (L : Library) (t t2 : trace)
  (max_items : option Z) (root channel : ET.element) :
  parsed_feed L t = Some (root, t2) ->
  ET.find "channel" root = Some channel ->
  let reads (e : ET.element) (record : pyval) '(field, name) :=
    (forall child, ET.find name e = Some child ->
       dict_get field record = Some (of_text (ET.text child))
       /\ (ET.text child = None -> dict_get field record = Some VNone))
    /\ (ET.find name e = None -> dict_get field record = Some (VStr "")) in
  exists feed_info items,
    call (get_deped_rss_feed L max_items) t
    = (inr (success [("feed_info", feed_info); ("items", VList items)]), t2)
    /\ Forall (reads channel feed_info) channel_fields
    /\ Forall2 (fun item record => Forall (reads item record) item_fields)
         (slice_to max_items (ET.findall "item" channel)) items.
Proof.
  intros Hfeed Hchannel reads.
  rewrite (feed_of_channel L t t2 max_items root channel Hfeed Hchannel).
  eexists _, _. split; [reflexivity|].
  assert (Hreads : forall e record fields,
    Forall (fun '(field, name) =>
              dict_get field record = Some (of_text (text_or_empty name e)))
      fields ->
    Forall (reads e record) fields).
  { intros e record fields Hfields.
    eapply Forall_impl; [|exact Hfields].
    intros [field name] Hfield. unfold reads. split.
    - intros child Hchild.
      rewrite Hfield, (text_or_empty_present _ _ _ Hchild).
      split; [reflexivity|]. now intros ->.
    - intros Habsent. now rewrite Hfield, (text_or_empty_absent _ _ Habsent). }
  split.
  - apply Hreads, channel_info_field.
  - apply Forall2_map_r. intros item _. apply Hreads, item_record_field.
Qed.

Lemma empty_element_gives_none_witness :
  exists feed_info items,
    call (get_deped_rss_feed Fixture.feed (Some 10%Z)) []
    = (inr (success [("feed_info", feed_info); ("items", VList items)]),
       [EvGet primary_url; EvParseXML (Fixture.body "<rss>feed</rss>")])
    /\ ET.find "description" Fixture.channel
       = Some (ET.Element "description" None [])
    /\ dict_get "description" feed_info = Some VNone
    /\ map (dict_get "title") items
       = [Some (VStr "Memorandum"); Some VNone; Some (VStr "Undated")].
Proof.
  destruct (empty_element_gives_none Fixture.feed []
              [EvGet primary_url; EvParseXML (Fixture.body "<rss>feed</rss>")]
              (Some 10%Z) Fixture.rss Fixture.channel eq_refl eq_refl)
    as (feed_info & items & Hcall & _ & _).
  exists feed_info, items. split; [exact Hcall|].
  vm_compute in Hcall. injection Hcall as <- <-. repeat split.
Defined.

(** C10. With [max_items = None] and a parsed feed that has a channel,
    the call returns a ["success"] envelope whose [items] are the
    records of all the [item] elements of the channel, one each, in
    document order. *)
Theorem no_limit_returns_every_item (L : Library) (t t2 : trace)
  (root channel : ET.element) :
  parsed_feed L t = Some (root, t2) ->
  ET.find "channel" root = Some channel ->
  exists feed_info items,
    call (get_deped_rss_feed L None) t
    = (inr (VDict [("status", VStr "success"); ("feed_info", feed_info);
                   ("items", VList items)]), t2)
    /\ List.length items = List.length (ET.findall "item" channel)
    /\ Forall2 (fun item record =>
                  forall t', feed_item L item t' = (Normal record, t'))
         (ET.findall "item" channel) items.
Proof.
  intros Hfeed Hchannel.
  rewrite (feed_of_channel L t t2 None root channel Hfeed Hchannel).
  eexists _, _. split; [reflexivity|]. split.
  - apply length_map.
  - apply Forall2_map_r. intros item _ t'. apply feed_item_run.
Qed.

Lemma no_limit_returns_every_item_witness :
  ET.findall "item" Fixture.channel
  = [Fixture.item1; Fixture.item2; Fixture.item3]
  /\ exists feed_info items,
       call (get_deped_rss_feed Fixture.feed None) []
       = (inr (VDict [("status", VStr "success"); ("feed_info", feed_info);
                      ("items", VList items)]),
          [EvGet primary_url; EvParseXML (Fixture.body "<rss>feed</rss>")])
       /\ List.length items = 3%nat.
Proof.
  split; [reflexivity|].
  destruct (no_limit_returns_every_item Fixture.feed []
              [EvGet primary_url; EvParseXML (Fixture.body "<rss>feed</rss>")]
              Fixture.rss Fixture.channel eq_refl eq_refl)
    as (feed_info & items & Hcall & Hlen & _).
  exists feed_info, items. split; [exact Hcall|]. exact Hlen.
Defined.

(** ** Repository titles *)

Lemma trending_articles_from (articles : list Bs4.node) (repos : list pyval)
  (e : pyval) :
  In e (trending_articles articles repos) ->
  In e repos
  \/ exists article h2_tag link_tag relative_link,
       In article articles
       /\ Bs4.find "h2" (Some "h3") article = Some h2_tag
       /\ Bs4.find "a" None h2_tag = Some link_tag
       /\ Bs4.attr "href" link_tag = Some relative_link
       /\ e = entry (repo_title link_tag)
                ("https://github.com" ++ relative_link).
Proof.
  revert repos. induction articles as [|article rest IH]; intros repos;
    simpl; [now left|].
  intros Hin. apply IH in Hin as [Hin|Hin].
  - destruct (Bs4.find "h2" (Some "h3") article) as [h2_tag|] eqn:Hh2;
      [|now left].
    destruct (Bs4.find "a" None h2_tag) as [link_tag|] eqn:Ha; [|now left].
    destruct (Bs4.attr "href" link_tag) as [relative_link|] eqn:Hhref;
      [|now left].
    apply in_app_or in Hin as [Hin|[<-|[]]]; [now left|].
    right. exists article, h2_tag, link_tag, relative_link. auto.
  - right. destruct Hin as (a & h & l & r & Hin & H).
    exists a, h, l, r. auto.
Qed.

(** C4, as stated, fails: the anchor of a card holds the fragments
    ["owner /"] and ["repo"], whose concatenation is ["owner /repo"];
    the title returned for it is ["owner/repo"]. *)
Lemma repo_title_is_not_the_concatenation :
  let link_tag := Fixture.repo_anchor in
  Bs4.stripped_strings link_tag = ["owner /"; "repo"]
  /\ PyStr.join "" (Bs4.stripped_strings link_tag) = "owner /repo"
  /\ repo_title link_tag = "owner/repo"
  /\ repo_title link_tag <> PyStr.join "" (Bs4.stripped_strings link_tag)
  /\ Bs4.find "a" None (Fixture.card "owner" "repo") = Some link_tag
  /\ call (get_github_trending_repos Fixture.scrapers (Some 1%Z)) []
     = (inr (success
               [("repos",
                 VList [entry "owner/repo" "https://github.com/owner/repo"])]),
        [EvGet trending_url]).
Proof. cbv zeta. repeat split. discriminate. Qed.

(** C4, amended. The title of a repository is the concatenation of the
    stripped fragments of its anchor with every space removed, when
    there are at least two fragments; with fewer, it is the stripped
    text of the anchor with every newline and every space removed. Each
    entry returned by [get_github_trending_repos] carries the title of
    the anchor it comes from. *)
Theorem repo_title_joins_and_unspaces (L : Library) (t : trace)
  (n : option Z) :
  (forall link_tag,
     let title_parts := Bs4.stripped_strings link_tag in
     ((2 <= List.length title_parts)%nat ->
      repo_title link_tag
      = PyStr.replace " " "" (PyStr.join "" title_parts))
     /\ ((List.length title_parts < 2)%nat ->
         repo_title link_tag
         = PyStr.replace " " ""
             (PyStr.replace PyStr.newline ""
                (Bs4.get_text_strip link_tag))))
  /\ (forall soup, parsed_page L trending_url t = Some soup ->
        exists repos,
          call (get_github_trending_repos L n) t
          = (inr (success [("repos", VList repos)]), t ++ [EvGet trending_url])
          /\ Forall (fun e => exists link_tag, repo_of soup link_tag e) repos).
Proof.
  split.
  - intros link_tag title_parts. unfold repo_title. fold title_parts.
    split; intros Hlen.
    + apply Nat.leb_le in Hlen. rewrite Hlen. apply replace_join_space.
    + apply Nat.leb_gt in Hlen. rewrite Hlen. reflexivity.
  - intros soup Hpage. rewrite (repos_of_page _ _ _ _ Hpage).
    eexists. split; [reflexivity|].
    apply Forall_forall. intros e Hin.
    apply slice_to_incl, trending_articles_from in Hin as [[]|Hin].
    destruct Hin as (article & h2_tag & link_tag & relative_link & H).
    exists link_tag, article, h2_tag, relative_link. exact H.
Qed.

Lemma repo_title_joins_and_unspaces_witness :
  (2 <= List.length (Bs4.stripped_strings Fixture.repo_anchor))%nat
  /\ repo_title Fixture.repo_anchor
     = PyStr.replace " " "" "owner /repo"
  /\ exists repos,
       call (get_github_trending_repos Fixture.scrapers None) []
       = (inr (success [("repos", VList repos)]), [EvGet trending_url])
       /\ Forall (fun e => exists link_tag,
                    repo_of Fixture.trending_page link_tag e) repos.
Proof.
  pose proof (repo_title_joins_and_unspaces Fixture.scrapers [] None)
    as [Htitle Hrepos].
  assert (Hlen : (2 <= List.length
                         (Bs4.stripped_strings Fixture.repo_anchor))%nat)
    by (simpl; lia).
  split; [exact Hlen|]. split.
  - exact (proj1 (Htitle Fixture.repo_anchor) Hlen).
  - exact (Hrepos Fixture.trending_page eq_refl).
Defined.

(** * Further properties *)

(** ** The rows of the two scrapers *)

Lemma hackernews_rows_acc (rows : list Bs4.node) (posts : list pyval) :
  hackernews_rows rows posts = posts ++ hackernews_rows rows [].
Proof.
  revert posts. induction rows as [|row rest IH]; intros posts; simpl.
  - now rewrite app_nil_r.
  - destruct (Bs4.find "span" (Some "titleline") row) as [title_span|];
      [|apply IH].
    destruct (Bs4.find "a" None title_span) as [link_tag|]; [|apply IH].
    destruct (Bs4.attr "href" link_tag) as [link|]; [|apply IH].
    rewrite (IH (posts ++ _)), (IH [_]), <- app_assoc. reflexivity.
Qed.

Lemma trending_articles_acc (articles : list Bs4.node) (repos : list pyval) :
  trending_articles articles repos = repos ++ trending_articles articles [].
Proof.
  revert repos. induction articles as [|article rest IH]; intros repos; simpl.
  - now rewrite app_nil_r.
  - destruct (Bs4.find "h2" (Some "h3") article) as [h2_tag|]; [|apply IH].
    destruct (Bs4.find "a" None h2_tag) as [link_tag|]; [|apply IH].
    destruct (Bs4.attr "href" link_tag) as [relative_link|]; [|apply IH].
    rewrite (IH (repos ++ _)), (IH [_]), <- app_assoc. reflexivity.
Qed.

Lemma hackernews_rows_app (rows1 rows2 : list Bs4.node) :
  hackernews_rows (rows1 ++ rows2) []
  = hackernews_rows rows1 [] ++ hackernews_rows rows2 [].
Proof.
  induction rows1 as [|row rest IH]; [reflexivity|].
  cbn [app hackernews_rows].
  rewrite (hackernews_rows_acc (rest ++ rows2)), (hackernews_rows_acc rest),
    IH, app_assoc.
  reflexivity.
Qed.

Lemma trending_articles_app (articles1 articles2 : list Bs4.node) :
  trending_articles (articles1 ++ articles2) []
  = trending_articles articles1 [] ++ trending_articles articles2 [].
Proof.
  induction articles1 as [|article rest IH]; [reflexivity|].
  cbn [app trending_articles].
  rewrite (trending_articles_acc (rest ++ articles2)),
    (trending_articles_acc rest), IH, app_assoc.
  reflexivity.
Qed.

(** The entries of one row; of one article. *)
Lemma hackernews_row_in (row : Bs4.node) (e : pyval) :
  In e (hackernews_rows [row] []) <->
  exists title_span link_tag link,
    Bs4.find "span" (Some "titleline") row = Some title_span
    /\ Bs4.find "a" None title_span = Some link_tag
    /\ Bs4.attr "href" link_tag = Some link
    /\ e = entry (Bs4.get_text_strip link_tag) link.
Proof.
  simpl.
  destruct (Bs4.find "span" (Some "titleline") row) as [title_span|].
  2:{ split; [intros []|]. now intros (? & ? & ? & [=] & _). }
  destruct (Bs4.find "a" None title_span) as [link_tag|] eqn:Ha.
  2:{ split; [intros []|]. intros (? & ? & ? & [= <-] & Ha' & _).
      congruence. }
  destruct (Bs4.attr "href" link_tag) as [link|] eqn:Hhref.
  2:{ split; [intros []|]. intros (? & ? & ? & [= <-] & Ha' & Hhref' & _).
      congruence. }
  split.
  - intros [<-|[]]. now exists title_span, link_tag, link.
  - intros (? & ? & ? & [= <-] & Ha' & Hhref' & ->).
    rewrite Ha in Ha'. injection Ha' as <-.
    rewrite Hhref in Hhref'. injection Hhref' as <-. now left.
Qed.

Lemma trending_article_in (article : Bs4.node) (e : pyval) :
  In e (trending_articles [article] []) <->
  exists h2_tag link_tag relative_link,
    Bs4.find "h2" (Some "h3") article = Some h2_tag
    /\ Bs4.find "a" None h2_tag = Some link_tag
    /\ Bs4.attr "href" link_tag = Some relative_link
    /\ e = entry (repo_title link_tag)
             ("https://github.com" ++ relative_link).
Proof.
  simpl.
  destruct (Bs4.find "h2" (Some "h3") article) as [h2_tag|].
  2:{ split; [intros []|]. now intros (? & ? & ? & [=] & _). }
  destruct (Bs4.find "a" None h2_tag) as [link_tag|] eqn:Ha.
  2:{ split; [intros []|]. intros (? & ? & ? & [= <-] & Ha' & _).
      congruence. }
  destruct (Bs4.attr "href" link_tag) as [link|] eqn:Hhref.
  2:{ split; [intros []|]. intros (? & ? & ? & [= <-] & Ha' & Hhref' & _).
      congruence. }
  split.
  - intros [<-|[]]. now exists h2_tag, link_tag, link.
  - intros (? & ? & ? & [= <-] & Ha' & Hhref' & ->).
    rewrite Ha in Ha'. injection Ha' as <-.
    rewrite Hhref in Hhref'. injection Hhref' as <-. now left.
Qed.

Lemma hackernews_rows_in (rows : list Bs4.node) (e : pyval) :
  In e (hackernews_rows rows []) <->
  exists row, In row rows /\ In e (hackernews_rows [row] []).
Proof.
  induction rows as [|row rest IH].
  - split; [intros []|]. now intros (? & [] & _).
  - change (row :: rest) with ([row] ++ rest).
    rewrite hackernews_rows_app, in_app_iff, IH. split.
    + intros [Hin|(r & Hr & Hin)].
      * exists row. split; [now left|assumption].
      * exists r. split; [now right|assumption].
    + intros (r & [<-|Hr] & Hin); [now left|].
      right. now exists r.
Qed.

Lemma trending_articles_in (articles : list Bs4.node) (e : pyval) :
  In e (trending_articles articles []) <->
  exists article, In article articles
                  /\ In e (trending_articles [article] []).
Proof.
  induction articles as [|article rest IH].
  - split; [intros []|]. now intros (? & [] & _).
  - change (article :: rest) with ([article] ++ rest).
    rewrite trending_articles_app, in_app_iff, IH. split.
    + intros [Hin|(r & Hr & Hin)].
      * exists article. split; [now left|assumption].
      * exists r. split; [now right|assumption].
    + intros (r & [<-|Hr] & Hin); [now left|].
      right. now exists r.
Qed.

(** X1. Each scraper sends exactly one request, to its own URL, and
    hands nothing to the XML parser, whatever the count and whatever
    the network and the parser answer: there is no retry. *)
Theorem scrapers_request_once (L : Library) (n : option Z) (t : trace) :
  snd (call (get_hackernews_posts L n) t)
  = t ++ [EvGet "https://news.ycombinator.com/"]
  /\ snd (call (get_github_trending_repos L n) t)
     = t ++ [EvGet "https://github.com/trending"]
  /\ requested (snd (call (get_hackernews_posts L n) t))
     = requested t ++ ["https://news.ycombinator.com/"]
  /\ requested (snd (call (get_github_trending_repos L n) t))
     = requested t ++ ["https://github.com/trending"]
  /\ parse_attempts (snd (call (get_hackernews_posts L n) t))
     = parse_attempts t
  /\ parse_attempts (snd (call (get_github_trending_repos L n) t))
     = parse_attempts t.
Proof.
  assert (Hparse : forall t1 url,
            parse_attempts (t1 ++ [EvGet url]) = parse_attempts t1).
  { intros t1 url. induction t1 as [|[u|b] t1 IH]; simpl; congruence. }
  rewrite get_hackernews_posts_run, get_github_trending_repos_run.
  cbn [snd]. rewrite !requested_app, !Hparse. repeat split.
Qed.

(** X2. The scrapers do not look at the status code. Whenever the
    request returns a response and the parser returns a tree, the call
    is a ["success"] with the extraction of that tree, whatever the
    status of the response. The call is an ["error"] exactly when the
    request or the parser raises, and the message is the scraper's
    prefix followed by the text of the exception. *)
Theorem scrapers_ignore_status (L : Library) (n : option Z) (t : trace) :
  (forall res soup,
     network L t hackernews_url = inr res ->
     html_parser L (content res) = inr soup ->
     fst (call (get_hackernews_posts L n) t)
     = inr (success [("posts", VList (slice_to n (all_posts soup)))]))
  /\ (forall res soup,
        network L t trending_url = inr res ->
        html_parser L (content res) = inr soup ->
        fst (call (get_github_trending_repos L n) t)
        = inr (success [("repos", VList (slice_to n (all_repos soup)))]))
  /\ (forall e,
        (network L t hackernews_url = inl e
         \/ exists res, network L t hackernews_url = inr res
                        /\ html_parser L (content res) = inl e) ->
        fst (call (get_hackernews_posts L n) t)
        = inr (error ("Error when trying to get hackernews posts: "
                      ++ exn_str e)))
  /\ (forall e,
        (network L t trending_url = inl e
         \/ exists res, network L t trending_url = inr res
                        /\ html_parser L (content res) = inl e) ->
        fst (call (get_github_trending_repos L n) t)
        = inr (error ("Error when trying to get trending repos: "
                      ++ exn_str e))).
Proof.
  rewrite get_hackernews_posts_run, get_github_trending_repos_run.
  cbn [fst]. repeat split.
  - now intros res soup -> ->.
  - now intros res soup -> ->.
  - now intros e [->|(res & -> & ->)].
  - now intros e [->|(res & -> & ->)].
Qed.

Lemma scrapers_ignore_status_witness :
  network Cases.error_pages [] hackernews_url
  = inr (mkResponse 404 (Fixture.body "front page"))
  /\ network Cases.error_pages [] trending_url
     = inr (mkResponse 500 (Fixture.body "trending page"))
  /\ fst (call (get_hackernews_posts Cases.error_pages (Some 1%Z)) [])
     = inr (success
              [("posts", VList [entry "First" "https://example.org/1"])])
  /\ fst (call (get_github_trending_repos Cases.error_pages (Some 1%Z)) [])
     = inr (success
              [("repos",
                VList [entry "owner/repo" "https://github.com/owner/repo"])])
  /\ fst (call (get_hackernews_posts Cases.choking None) [])
     = inr (error
              "Error when trying to get hackernews posts: Connection refused").
Proof.
  pose proof (scrapers_ignore_status Cases.error_pages (Some 1%Z) [])
    as (Hposts & Hrepos & _ & _).
  pose proof (scrapers_ignore_status Cases.choking None [])
    as (_ & _ & Herror & _).
  split; [reflexivity|]. split; [reflexivity|]. split; [|split].
  - exact (Hposts _ Fixture.front_page eq_refl eq_refl).
  - exact (Hrepos _ Fixture.trending_page eq_refl eq_refl).
  - exact (Herror Fixture.refused (or_introl eq_refl)).
Defined.

(** X3. The posts returned without a limit are exactly the entries of
    the rows of the page that have a title line with an anchor carrying
    an [href]: each such row gives the stripped text of the anchor and
    its [href] as it stands, and every other row gives nothing. *)
Theorem posts_are_the_linked_rows (L : Library) (t : trace)
  (soup : Bs4.node) :
  parsed_page L hackernews_url t = Some soup ->
  exists posts,
    fst (call (get_hackernews_posts L None) t)
    = inr (success [("posts", VList posts)])
    /\ forall e, In e posts <-> exists link_tag, post_of soup link_tag e.
Proof.
  intros Hpage. rewrite (posts_of_page _ _ _ _ Hpage).
  eexists. split; [reflexivity|]. intros e. cbn [slice_to].
  unfold all_posts, post_of. rewrite hackernews_rows_in. split.
  - intros (row & Hrow & Hin).
    apply hackernews_row_in in Hin as (title_span & link_tag & link & H).
    exists link_tag, row, title_span, link. tauto.
  - intros (link_tag & row & title_span & link & Hrow & H).
    exists row. split; [assumption|]. apply hackernews_row_in.
    exists title_span, link_tag, link. tauto.
Qed.

Lemma posts_are_the_linked_rows_witness :
  exists posts,
    fst (call (get_hackernews_posts Fixture.scrapers None) [])
    = inr (success [("posts", VList posts)])
    /\ forall e,
         In e posts <-> exists link_tag, post_of Fixture.front_page link_tag e.
Proof.
  exact (posts_are_the_linked_rows Fixture.scrapers [] Fixture.front_page
           eq_refl).
Defined.

(** X4. The repositories returned without a limit are exactly the
    entries of the articles of the page whose heading has an anchor
    carrying an [href]; every other article gives nothing. *)
Theorem repos_are_the_linked_articles (L : Library) (t : trace)
  (soup : Bs4.node) :
  parsed_page L trending_url t = Some soup ->
  exists repos,
    fst (call (get_github_trending_repos L None) t)
    = inr (success [("repos", VList repos)])
    /\ forall e, In e repos <-> exists link_tag, repo_of soup link_tag e.
Proof.
  intros Hpage. rewrite (repos_of_page _ _ _ _ Hpage).
  eexists. split; [reflexivity|]. intros e. cbn [slice_to].
  unfold all_repos, repo_of. rewrite trending_articles_in. split.
  - intros (article & Harticle & Hin).
    apply trending_article_in in Hin as (h2_tag & link_tag & link & H).
    exists link_tag, article, h2_tag, link. tauto.
  - intros (link_tag & article & h2_tag & link & Harticle & H).
    exists article. split; [assumption|]. apply trending_article_in.
    exists h2_tag, link_tag, link. tauto.
Qed.

Lemma repos_are_the_linked_articles_witness :
  exists repos,
    fst (call (get_github_trending_repos Fixture.scrapers None) [])
    = inr (success [("repos", VList repos)])
    /\ forall e,
         In e repos
         <-> exists link_tag, repo_of Fixture.trending_page link_tag e.
Proof.
  exact (repos_are_the_linked_articles Fixture.scrapers [] Fixture.trending_page
           eq_refl).
Defined.

(** X5. Rows are scraped one by one and in order: the entries of a
    list of rows followed by another are the entries of the first
    followed by those of the second, a row gives at most one entry, and
    so a page gives at most as many entries as it has rows. The same
    holds of the articles of the trending page. *)
Theorem rows_scraped_in_order (rows1 rows2 : list Bs4.node) :
  hackernews_rows (rows1 ++ rows2) []
  = hackernews_rows rows1 [] ++ hackernews_rows rows2 []
  /\ trending_articles (rows1 ++ rows2) []
     = trending_articles rows1 [] ++ trending_articles rows2 []
  /\ (List.length (hackernews_rows rows1 []) <= List.length rows1)%nat
  /\ (List.length (trending_articles rows1 []) <= List.length rows1)%nat.
Proof.
  split; [|split; [|split]].
  - apply hackernews_rows_app.
  - apply trending_articles_app.
  - clear rows2. induction rows1 as [|row rest IH]; [simpl; lia|].
    cbn [hackernews_rows]. rewrite hackernews_rows_acc, length_app.
    destruct (Bs4.find "span" (Some "titleline") row) as [title_span|];
      [|simpl; lia].
    destruct (Bs4.find "a" None title_span) as [link_tag|]; [|simpl; lia].
    destruct (Bs4.attr "href" link_tag); simpl; lia.
  - clear rows2. induction rows1 as [|row rest IH]; [simpl; lia|].
    cbn [trending_articles]. rewrite trending_articles_acc, length_app.
    destruct (Bs4.find "h2" (Some "h3") row) as [h2_tag|]; [|simpl; lia].
    destruct (Bs4.find "a" None h2_tag) as [link_tag|]; [|simpl; lia].
    destruct (Bs4.attr "href" link_tag); simpl; lia.
Qed.

(** X6. A page with no post row, or no repository article, is not an
    error: the call returns ["success"] with an empty list, whatever
    the count. *)
Theorem empty_page_is_success (L : Library) (n : option Z) (t : trace)
  (soup : Bs4.node) :
  (parsed_page L hackernews_url t = Some soup ->
   Bs4.find_all "tr" (Some "athing") soup = [] ->
   fst (call (get_hackernews_posts L n) t)
   = inr (success [("posts", VList [])]))
  /\ (parsed_page L trending_url t = Some soup ->
      Bs4.find_all "article" (Some "Box-row") soup = [] ->
      fst (call (get_github_trending_repos L n) t)
      = inr (success [("repos", VList [])])).
Proof.
  assert (Hnil : slice_to n (@nil pyval) = []).
  { destruct n as [k|]; [|reflexivity]. unfold slice_to. apply firstn_nil. }
  split; intros Hpage Hempty.
  - rewrite (posts_of_page _ _ _ _ Hpage). unfold all_posts.
    rewrite Hempty. cbn [fst hackernews_rows]. now rewrite Hnil.
  - rewrite (repos_of_page _ _ _ _ Hpage). unfold all_repos.
    rewrite Hempty. cbn [fst trending_articles]. now rewrite Hnil.
Qed.

Lemma empty_page_is_success_witness :
  Bs4.find_all "tr" (Some "athing") Cases.blank_page = []
  /\ Bs4.find_all "article" (Some "Box-row") Cases.blank_page = []
  /\ fst (call (get_hackernews_posts Cases.blank (Some (-3)%Z)) [])
     = inr (success [("posts", VList [])])
  /\ fst (call (get_github_trending_repos Cases.blank (Some (-3)%Z)) [])
     = inr (success [("repos", VList [])]).
Proof.
  pose proof (empty_page_is_success Cases.blank (Some (-3)%Z) []
                Cases.blank_page) as [Hposts Hrepos].
  split; [reflexivity|]. split; [reflexivity|]. split.
  - exact (Hposts eq_refl eq_refl).
  - exact (Hrepos eq_refl eq_refl).
Defined.

(** ** Titles and links *)

Lemma has_char_app (c : ascii) (s1 s2 : string) :
  has_char c (s1 ++ s2) = has_char c s1 || has_char c s2.
Proof.
  induction s1 as [|c' s1 IH]; simpl; [reflexivity|].
  now rewrite IH, orb_assoc.
Qed.

(** Deleting a character leaves none of it, and brings in no other. *)
Lemma has_char_replace_same (c : ascii) (s : string) :
  has_char c (PyStr.replace c "" s) = false.
Proof.
  induction s as [|c' s IH]; simpl; [reflexivity|].
  destruct (Ascii.eqb c' c) eqn:Heq; simpl; [assumption|].
  now rewrite Heq.
Qed.

Lemma has_char_replace_other (c d : ascii) (s : string) :
  has_char c s = false -> has_char c (PyStr.replace d "" s) = false.
Proof.
  induction s as [|c' s IH]; simpl; [reflexivity|].
  intros H. apply orb_false_iff in H as [Hc Hs].
  destruct (Ascii.eqb c' d); simpl; [now apply IH|].
  now rewrite Hc, IH.
Qed.

Lemma prefix_append (s r : string) : String.prefix s (s ++ r) = true.
Proof.
  induction s as [|c s IH]; simpl; [now destruct r|].
  destruct (ascii_dec c c); [assumption|congruence].
Qed.

Lemma repo_title_unspaced (link_tag : Bs4.node) :
  has_char " " (repo_title link_tag) = false.
Proof.
  unfold repo_title.
  destruct (2 <=? List.length (Bs4.stripped_strings link_tag))%nat;
    apply (has_char_replace_same PyStr.space).
Qed.

(** X7. Every entry returned by [get_github_trending_repos] has a
    title without any space character and a link that starts with
    ["https://github.com"], whatever the markup of the page and
    whatever the count. *)
Theorem repos_are_unspaced_and_absolute (L : Library) (n : option Z)
  (t : trace) (soup : Bs4.node) :
  parsed_page L trending_url t = Some soup ->
  exists repos,
    fst (call (get_github_trending_repos L n) t)
    = inr (success [("repos", VList repos)])
    /\ Forall (fun e =>
                 exists title link,
                   e = entry title link
                   /\ has_char " " title = false
                   /\ String.prefix "https://github.com" link = true)
         repos.
Proof.
  intros Hpage. rewrite (repos_of_page _ _ _ _ Hpage).
  eexists. split; [reflexivity|].
  apply Forall_forall. intros e Hin.
  apply slice_to_incl in Hin. unfold all_repos in Hin.
  apply trending_articles_in in Hin as (article & _ & Hin).
  apply trending_article_in in Hin
    as (h2_tag & link_tag & relative_link & _ & _ & _ & ->).
  eexists _, _. split; [reflexivity|]. split.
  - apply repo_title_unspaced.
  - apply prefix_append.
Qed.

Lemma repos_are_unspaced_and_absolute_witness :
  exists repos,
    fst (call (get_github_trending_repos Fixture.scrapers (Some 2%Z)) [])
    = inr (success [("repos", VList repos)])
    /\ Forall (fun e =>
                 exists title link,
                   e = entry title link
                   /\ has_char " " title = false
                   /\ String.prefix "https://github.com" link = true)
         repos.
Proof.
  exact (repos_are_unspaced_and_absolute Fixture.scrapers (Some 2%Z) []
           Fixture.trending_page eq_refl).
Defined.

(** X8. When the anchor has fewer than two stripped fragments, the
    title has no newline either; with two or more, a newline inside a
    fragment stays in the title. *)
Theorem repo_title_newlines :
  (forall link_tag,
     (List.length (Bs4.stripped_strings link_tag) < 2)%nat ->
     has_char PyStr.newline (repo_title link_tag) = false)
  /\ (exists link_tag,
        (2 <= List.length (Bs4.stripped_strings link_tag))%nat
        /\ has_char PyStr.newline (repo_title link_tag) = true).
Proof.
  split.
  - intros link_tag Hlen. unfold repo_title.
    apply Nat.leb_gt in Hlen. rewrite Hlen.
    apply has_char_replace_other, has_char_replace_same.
  - exists (Bs4.Tag "a" [] []
              [Bs4.NavigableString "owner";
               Bs4.NavigableString
                 (String "r" (String PyStr.newline "epo"))]).
    split; [simpl; lia|reflexivity].
Qed.

Lemma repo_title_newlines_witness :
  (List.length
     (Bs4.stripped_strings
        (Bs4.Tag "a" [] [] [Bs4.NavigableString " one part "])) < 2)%nat
  /\ has_char PyStr.newline
       (repo_title (Bs4.Tag "a" [] [] [Bs4.NavigableString " one part "]))
     = false.
Proof.
  assert (Hlen : (List.length
            (Bs4.stripped_strings
               (Bs4.Tag "a" [] [] [Bs4.NavigableString " one part "]))
            < 2)%nat) by (simpl; lia).
  split; [exact Hlen|].
  exact (proj1 repo_title_newlines _ Hlen).
Defined.

(** ** Trimmed text *)

Lemma lstrip_starts (s : string) :
  starts_with_space (PyStr.lstrip s) = false.
Proof.
  induction s as [|c s IH]; simpl; [reflexivity|].
  destruct (PyStr.isspace c) eqn:Hc; [assumption|]. simpl. exact Hc.
Qed.

Lemma rstrip_ends (s : string) :
  ends_with_space (PyStr.rstrip s) = false.
Proof.
  induction s as [|c s IH]; simpl; [reflexivity|].
  destruct (PyStr.rstrip s) as [|d r].
  - destruct (PyStr.isspace c) eqn:Hc; simpl; [reflexivity|exact Hc].
  - exact IH.
Qed.

Lemma rstrip_starts (s : string) :
  starts_with_space s = false ->
  starts_with_space (PyStr.rstrip s) = false.
Proof.
  destruct s as [|c s]; simpl; [reflexivity|]. intros Hc.
  destruct (PyStr.rstrip s); [rewrite Hc|]; simpl; exact Hc.
Qed.

Lemma strip_trimmed (s : string) :
  starts_with_space (PyStr.strip s) = false
  /\ ends_with_space (PyStr.strip s) = false.
Proof.
  unfold PyStr.strip. split.
  - apply rstrip_starts, lstrip_starts.
  - apply rstrip_ends.
Qed.

(** Stripping again changes nothing. *)
Lemma rstrip_fixed (s : string) :
  ends_with_space s = false -> PyStr.rstrip s = s.
Proof.
  induction s as [|c s IH]; [reflexivity|].
  destruct s as [|d s].
  - simpl. now intros ->.
  - intros H. change (ends_with_space (String d s) = false) in H.
    specialize (IH H). cbn [PyStr.rstrip] in *. now rewrite IH.
Qed.

Lemma lstrip_fixed (s : string) :
  starts_with_space s = false -> PyStr.lstrip s = s.
Proof. destruct s as [|c s]; simpl; [reflexivity|]. now intros ->. Qed.

Lemma strip_idempotent (s : string) :
  PyStr.strip (PyStr.strip s) = PyStr.strip s.
Proof.
  destruct (strip_trimmed s) as [Hs He].
  unfold PyStr.strip at 1. now rewrite (lstrip_fixed _ Hs), (rstrip_fixed _ He).
Qed.

Lemma ends_with_space_app (p q : string) :
  q <> "" -> ends_with_space (p ++ q) = ends_with_space q.
Proof.
  intros Hq. induction p as [|c p IH]; [reflexivity|].
  cbn [String.append ends_with_space]. rewrite IH.
  destruct (p ++ q)%string eqn:Happ; [|reflexivity].
  destruct p; [simpl in Happ; congruence|discriminate].
Qed.

Lemma join_trimmed (parts : list string) :
  Forall (fun p => p <> "" /\ trimmed p) parts ->
  trimmed (PyStr.join "" parts)
  /\ (parts <> [] -> PyStr.join "" parts <> "").
Proof.
  induction 1 as [|p ps [Hne [Hs He]] Hps [IHt IHne]].
  - split; [split; reflexivity|congruence].
  - destruct ps as [|q ps].
    + split; [split; assumption|]. intros _. exact Hne.
    + change (PyStr.join "" (p :: q :: ps))
        with (p ++ PyStr.join "" (q :: ps))%string.
      assert (Hrest : PyStr.join "" (q :: ps) <> "")
        by (apply IHne; discriminate).
      split; [split|].
      * destruct p; [congruence|exact Hs].
      * rewrite ends_with_space_app by assumption. apply IHt.
      * intros _. destruct p; [congruence|discriminate].
Qed.

(** The fragments of a tag are not empty and are trimmed. *)
Lemma stripped_strings_trimmed (n : Bs4.node) :
  Forall (fun p => p <> "" /\ trimmed p) (Bs4.stripped_strings n).
Proof.
  unfold Bs4.stripped_strings. apply Forall_flat_map, Forall_forall.
  intros d _. destruct d as [s| |]; try constructor.
  destruct (String.eqb_spec (PyStr.strip s) ""); constructor;
    [|constructor].
  split; [assumption|apply strip_trimmed].
Qed.

(** X9. Every title returned by [get_hackernews_posts] is trimmed: it
    neither starts nor ends with a space character, however the text of
    the anchor is laid out in the page. *)
Theorem post_titles_are_trimmed (L : Library) (n : option Z) (t : trace)
  (soup : Bs4.node) :
  parsed_page L hackernews_url t = Some soup ->
  exists posts,
    fst (call (get_hackernews_posts L n) t)
    = inr (success [("posts", VList posts)])
    /\ Forall (fun e =>
                 exists title link,
                   e = entry title link
                   /\ starts_with_space title = false
                   /\ ends_with_space title = false)
         posts.
Proof.
  intros Hpage. rewrite (posts_of_page _ _ _ _ Hpage).
  eexists. split; [reflexivity|].
  apply Forall_forall. intros e Hin.
  apply slice_to_incl in Hin. unfold all_posts in Hin.
  apply hackernews_rows_in in Hin as (row & _ & Hin).
  apply hackernews_row_in in Hin
    as (title_span & link_tag & link & _ & _ & _ & ->).
  eexists _, _. split; [reflexivity|].
  apply (join_trimmed _ (stripped_strings_trimmed link_tag)).
Qed.

Lemma post_titles_are_trimmed_witness :
  exists posts,
    fst (call (get_hackernews_posts Fixture.scrapers None) [])
    = inr (success [("posts", VList posts)])
    /\ Forall (fun e =>
                 exists title link,
                   e = entry title link
                   /\ starts_with_space title = false
                   /\ ends_with_space title = false)
         posts.
Proof.
  exact (post_titles_are_trimmed Fixture.scrapers None [] Fixture.front_page
           eq_refl).
Defined.

(** ** The requests and the parses of the feed *)

Lemma parse_attempts_app (t1 t2 : trace) :
  parse_attempts (t1 ++ t2) = parse_attempts t1 ++ parse_attempts t2.
Proof.
  induction t1 as [|[url|b] t1 IH]; simpl; [reflexivity|assumption|].
  now rewrite IH.
Qed.

(** The fetch parses nothing. *)
Lemma fetch_response_attempts (L : Library) (t : trace) :
  parse_attempts (snd (fetch_response L t)) = parse_attempts t.
Proof.
  rewrite fetch_response_run.
  destruct (network L t primary_url) as [e|r1].
  { cbn [snd]. rewrite parse_attempts_app. apply app_nil_r. }
  destruct (status_code r1 =? 200)%Z.
  { cbn [snd]. rewrite parse_attempts_app. apply app_nil_r. }
  destruct (network L _ alternate_url) as [e|r2];
    [|destruct (status_code r2 =? 200)%Z];
    cbn [snd]; rewrite parse_attempts_app; apply app_nil_r.
Qed.

(** X10. [get_deped_rss_feed] sends one request to the primary URL
    and, only when that one is answered with a status other than 200,
    one more to the alternate URL; it never sends a third, and sends no
    second one when the first request raises or is answered 200. *)
Theorem feed_requests (L : Library) (max_items : option Z) (t : trace) :
  requested (snd (call (get_deped_rss_feed L max_items) t))
  = requested t
    ++ "https://www.deped.gov.ph/feed/"
       :: match network L t "https://www.deped.gov.ph/feed/" with
          | inr r1 =>
              if (status_code r1 =? 200)%Z then []
              else ["https://www.deped.gov.ph/feed"]
          | inl _ => []
          end.
Proof.
  change "https://www.deped.gov.ph/feed/" with primary_url.
  change "https://www.deped.gov.ph/feed" with alternate_url.
  rewrite get_deped_rss_feed_run, fetch_response_run. cbv zeta.
  assert (Hparse : forall r t1,
    requested (snd
      match parse_response L r t1 with
      | (Normal root, t2) =>
          (@inr pyexn pyval
             match ET.find "channel" root with
             | Some channel =>
                 success
                   [("feed_info", channel_info channel);
                    ("items",
                     VList (map (item_record L)
                              (slice_to max_items
                                 (ET.findall "item" channel))))]
             | None =>
                 error "Invalid RSS feed format (no channel element found)"
             end, t2)
      | (Return v, t2) => (inr v, t2)
      | (Raise e, t2) =>
          (inr (error ("Error when trying to parse DepEd RSS feed: "
                       ++ exn_str e)), t2)
      end) = requested t1).
  { intros r t1. pose proof (parse_response_requested L r t1) as Hreq.
    destruct (parse_response L r t1) as [[root|v|e] t2]; exact Hreq. }
  destruct (network L t primary_url) as [e|r1].
  { cbn [snd]. now rewrite requested_app. }
  destruct (status_code r1 =? 200)%Z.
  { rewrite Hparse. now rewrite requested_app. }
  destruct (network L _ alternate_url) as [e|r2].
  { cbn [snd]. now rewrite requested_app. }
  destruct (status_code r2 =? 200)%Z.
  - rewrite Hparse. now rewrite requested_app.
  - cbn [snd]. now rewrite requested_app.
Qed.

(** X11. [get_deped_rss_feed] parses nothing unless the fetch yields
    a response answered 200; it then parses the body once, and a second
    time, cleaned, only when the first parse raises a [ParseError]. It
    never parses more than twice. *)
Theorem feed_parse_attempts (L : Library) (max_items : option Z)
  (t : trace) :
  parse_attempts (snd (call (get_deped_rss_feed L max_items) t))
  = parse_attempts t
    ++ match fetch_response L t with
       | (Normal response, _) =>
           content response
           :: match fromstring L (content response) with
              | inl e =>
                  if is_ParseError e
                  then [encode_utf8 L
                          (decode_utf8_ignore L (content response))]
                  else []
              | inr _ => []
              end
       | _ => []
       end.
Proof.
  rewrite get_deped_rss_feed_run. cbv zeta.
  pose proof (fetch_response_attempts L t) as Hfetch.
  destruct (fetch_response L t) as [[response|v|e] t1]; cbn [snd] in *;
    try (rewrite Hfetch; symmetry; apply app_nil_r).
  pose proof (parse_response_run L response t1) as Hrun. cbv zeta in Hrun.
  rewrite Hrun. clear Hrun. rewrite <- Hfetch.
  destruct (fromstring L (content response)) as [e1|root].
  - destruct (is_ParseError e1).
    + destruct (fromstring L (encode_utf8 L _)) as [e2|root];
        [destruct (is_ParseError e2)|];
        cbn [snd]; now rewrite parse_attempts_app.
    + cbn [snd]. now rewrite parse_attempts_app.
  - cbn [snd]. now rewrite parse_attempts_app.
Qed.

(** X12. An exception of the network, on the first request or on the
    retry, and an exception of the first parse that is not a
    [ParseError] end the call with the catch-all message followed by
    the text of the exception; after such a parse failure there is no
    recovery pass. *)
Theorem feed_reports_other_exceptions (L : Library) (max_items : option Z)
  (t : trace) :
  let caught e :=
    error ("Error when trying to parse DepEd RSS feed: " ++ exn_str e) in
  (forall e,
     network L t primary_url = inl e ->
     call (get_deped_rss_feed L max_items) t
     = (inr (caught e), t ++ [EvGet primary_url]))
  /\ (forall r1 e,
        network L t primary_url = inr r1 ->
        status_code r1 <> 200%Z ->
        network L (t ++ [EvGet primary_url]) alternate_url = inl e ->
        call (get_deped_rss_feed L max_items) t
        = (inr (caught e), t ++ [EvGet primary_url; EvGet alternate_url]))
  /\ (forall response t1 e,
        fetch_response L t = (Normal response, t1) ->
        fromstring L (content response) = inl e ->
        is_ParseError e = false ->
        call (get_deped_rss_feed L max_items) t
        = (inr (caught e), t1 ++ [EvParseXML (content response)])).
Proof.
  cbv zeta. split; [|split].
  - intros e Hnet.
    now rewrite get_deped_rss_feed_run, fetch_response_run, Hnet.
  - intros r1 e Hnet Hstatus Hretry. apply Z.eqb_neq in Hstatus.
    now rewrite get_deped_rss_feed_run, fetch_response_run, Hnet, Hstatus,
      Hretry.
  - intros response t1 e Hfetch Hparse Hclass.
    pose proof (parse_response_run L response t1) as Hrun.
    cbv zeta in Hrun. rewrite Hparse, Hclass in Hrun.
    now rewrite get_deped_rss_feed_run, Hfetch, Hrun.
Qed.

Lemma feed_reports_other_exceptions_witness :
  network Fixture.scrapers [] primary_url = inl Fixture.refused
  /\ call (get_deped_rss_feed Fixture.scrapers (Some 10%Z)) []
     = (inr (error
               "Error when trying to parse DepEd RSS feed: Connection refused"),
        [EvGet primary_url])
  /\ fromstring Cases.choking (Fixture.body "<rss>") = inl Cases.bad_argument
  /\ is_ParseError Cases.bad_argument = false
  /\ call (get_deped_rss_feed Cases.choking (Some 10%Z)) []
     = (inr (error
               "Error when trying to parse DepEd RSS feed: embedded null byte"),
        [EvGet primary_url; EvParseXML (Fixture.body "<rss>")]).
Proof.
  pose proof (feed_reports_other_exceptions Fixture.scrapers (Some 10%Z) [])
    as (Hnet & _ & _).
  pose proof (feed_reports_other_exceptions Cases.choking (Some 10%Z) [])
    as (_ & _ & Hparse).
  split; [reflexivity|]. split; [exact (Hnet Fixture.refused eq_refl)|].
  split; [reflexivity|]. split; [reflexivity|].
  exact (Hparse (Fixture.ok "<rss>") [EvGet primary_url] Cases.bad_argument
           eq_refl eq_refl eq_refl).
Defined.

(** ** The channel *)

Lemma find_none (name : string) (e : ET.element) :
  ET.find name e = None
  <-> Forall (fun c => ET.tag c <> name) (ET.children e).
Proof.
  unfold ET.find, ET.findall.
  induction (ET.children e) as [|c cs IH]; simpl.
  - split; [constructor|reflexivity].
  - destruct (String.eqb_spec (ET.tag c) name) as [Heq|Hne]; simpl.
    + split; [discriminate|]. intros H. inversion H. contradiction.
    + rewrite IH. split; [now constructor|]. intros H. now inversion H.
Qed.

Lemma find_first (name : string) (e c : ET.element)
  (before after : list ET.element) :
  ET.children e = before ++ c :: after ->
  Forall (fun b => ET.tag b <> name) before ->
  ET.tag c = name ->
  ET.find name e = Some c.
Proof.
  unfold ET.find, ET.findall. intros -> Hbefore Hc.
  induction Hbefore as [|b bs Hb _ IH]; simpl.
  - apply String.eqb_eq in Hc. now rewrite Hc.
  - apply String.eqb_neq in Hb. now rewrite Hb.
Qed.

(** X13. The channel is looked for among the children of the root
    only. When no child of the root is a [channel], whatever the root
    itself is and whatever lies deeper, the call returns the error
    envelope of the missing channel. *)
Theorem channel_must_be_a_child (L : Library) (max_items : option Z)
  (t t2 : trace) (root : ET.element) :
  parsed_feed L t = Some (root, t2) ->
  Forall (fun c => ET.tag c <> "channel") (ET.children root) ->
  call (get_deped_rss_feed L max_items) t
  = (inr (error "Invalid RSS feed format (no channel element found)"), t2).
Proof.
  intros Hfeed Hnone. apply find_none in Hnone.
  now rewrite (get_deped_rss_feed_parsed L max_items t t2 root Hfeed), Hnone.
Qed.

Lemma channel_must_be_a_child_witness :
  ET.tag Fixture.channel = "channel"
  /\ parsed_feed Cases.bare_channel []
     = Some (Fixture.channel,
             [EvGet primary_url; EvParseXML (Fixture.body "<channel/>")])
  /\ call (get_deped_rss_feed Cases.bare_channel (Some 10%Z)) []
     = (inr (error "Invalid RSS feed format (no channel element found)"),
        [EvGet primary_url; EvParseXML (Fixture.body "<channel/>")]).
Proof.
  split; [reflexivity|]. split; [reflexivity|].
  apply (channel_must_be_a_child Cases.bare_channel (Some 10%Z) []
           _ Fixture.channel eq_refl).
  repeat constructor; discriminate.
Defined.

(** X14. When the root has several [channel] children, the first one
    in document order is the one that is read; the others are
    ignored. *)
Theorem first_channel_is_read (L : Library) (max_items : option Z)
  (t t2 : trace) (root channel : ET.element)
  (before after : list ET.element) :
  parsed_feed L t = Some (root, t2) ->
  ET.children root = before ++ channel :: after ->
  Forall (fun b => ET.tag b <> "channel") before ->
  ET.tag channel = "channel" ->
  exists items,
    call (get_deped_rss_feed L max_items) t
    = (inr (success [("feed_info", channel_info channel);
                     ("items", VList items)]), t2)
    /\ Forall2 (fun item record =>
                  forall t', feed_item L item t' = (Normal record, t'))
         (slice_to max_items (ET.findall "item" channel)) items.
Proof.
  intros Hfeed Hchildren Hbefore Htag.
  pose proof (find_first "channel" root channel before after
                Hchildren Hbefore Htag) as Hfind.
  rewrite (feed_of_channel L t t2 max_items root channel Hfeed Hfind).
  eexists. split; [reflexivity|].
  apply Forall2_map_r. intros item _ t'. apply feed_item_run.
Qed.

Lemma first_channel_is_read_witness :
  exists items,
    call (get_deped_rss_feed Cases.two_channels (Some 1%Z)) []
    = (inr (success [("feed_info", channel_info Fixture.channel);
                     ("items", VList items)]),
       [EvGet primary_url; EvParseXML (Fixture.body "<rss>two</rss>")])
    /\ Forall2 (fun item record =>
                  forall t',
                    feed_item Cases.two_channels item t' = (Normal record, t'))
         [Fixture.item1] items.
Proof.
  apply (first_channel_is_read Cases.two_channels (Some 1%Z) [] _
           (ET.Element "rss" None
              [Fixture.leaf "generator" "x"; Fixture.channel;
               Cases.second_channel])
           Fixture.channel [Fixture.leaf "generator" "x"]
           [Cases.second_channel] eq_refl eq_refl).
  - repeat constructor; discriminate.
  - reflexivity.
Defined.

(** ** The limit of the feed *)

(** X15. With [max_items = k >= 0], the items returned are the first
    [min(k, total)] of the items returned without a limit, in the same
    order; with [k = 0] there are none, and the call is still a
    ["success"]. *)
Theorem max_items_takes_prefix (L : Library) (t t2 : trace) (k : Z)
  (root channel : ET.element) :
  parsed_feed L t = Some (root, t2) ->
  ET.find "channel" root = Some channel ->
  (0 <= k)%Z ->
  exists info every shown,
    call (get_deped_rss_feed L None) t
    = (inr (success [("feed_info", info); ("items", VList every)]), t2)
    /\ call (get_deped_rss_feed L (Some k)) t
       = (inr (success [("feed_info", info); ("items", VList shown)]), t2)
    /\ shown = firstn (Z.to_nat k) every
    /\ List.length every = List.length (ET.findall "item" channel)
    /\ Z.of_nat (List.length shown)
       = Z.min k (Z.of_nat (List.length every)).
Proof.
  intros Hfeed Hchannel Hk.
  rewrite !(feed_of_channel L t t2 _ root channel Hfeed Hchannel).
  eexists _, _, _. split; [reflexivity|]. split; [reflexivity|].
  rewrite slice_to_nonneg by assumption. cbn [slice_to].
  split; [symmetry; apply firstn_map|]. split; [apply length_map|].
  rewrite !length_map, length_firstn. lia.
Qed.

Lemma max_items_takes_prefix_witness :
  (0 <= 2)%Z
  /\ exists info every shown,
       call (get_deped_rss_feed Fixture.feed None) []
       = (inr (success [("feed_info", info); ("items", VList every)]),
          [EvGet primary_url; EvParseXML (Fixture.body "<rss>feed</rss>")])
       /\ call (get_deped_rss_feed Fixture.feed (Some 2%Z)) []
          = (inr (success [("feed_info", info); ("items", VList shown)]),
             [EvGet primary_url; EvParseXML (Fixture.body "<rss>feed</rss>")])
       /\ shown = firstn (Z.to_nat 2) every
       /\ List.length every = List.length (ET.findall "item" Fixture.channel)
       /\ Z.of_nat (List.length shown)
          = Z.min 2 (Z.of_nat (List.length every)).
Proof.
  assert (Hk : (0 <= 2)%Z) by lia.
  split; [exact Hk|].
  exact (max_items_takes_prefix Fixture.feed [] _ 2 Fixture.rss
           Fixture.channel eq_refl eq_refl Hk).
Defined.

(** X16. With a negative [max_items = k], the items returned are the
    items returned without a limit minus the last [|k|] of them (all of
    them when [|k| >= total]); the call is still a ["success"]. *)
Theorem negative_max_items_drops_last (L : Library) (t t2 : trace) (k : Z)
  (root channel : ET.element) :
  parsed_feed L t = Some (root, t2) ->
  ET.find "channel" root = Some channel ->
  (k < 0)%Z ->
  exists info every shown dropped,
    call (get_deped_rss_feed L None) t
    = (inr (success [("feed_info", info); ("items", VList every)]), t2)
    /\ call (get_deped_rss_feed L (Some k)) t
       = (inr (success [("feed_info", info); ("items", VList shown)]), t2)
    /\ every = shown ++ dropped
    /\ Z.of_nat (List.length dropped)
       = Z.min (- k) (Z.of_nat (List.length every)).
Proof.
  intros Hfeed Hchannel Hk.
  rewrite !(feed_of_channel L t t2 _ root channel Hfeed Hchannel).
  cbn [slice_to].
  exists (channel_info channel),
    (map (item_record L) (ET.findall "item" channel)),
    (map (item_record L) (slice_to (Some k) (ET.findall "item" channel))),
    (map (item_record L)
       (skipn (List.length (ET.findall "item" channel) - Z.to_nat (- k))
          (ET.findall "item" channel))).
  split; [reflexivity|]. split; [reflexivity|].
  rewrite slice_to_neg by assumption. split.
  - now rewrite <- map_app, firstn_skipn.
  - rewrite !length_map, length_skipn. lia.
Qed.

Lemma negative_max_items_drops_last_witness :
  (-1 < 0)%Z
  /\ exists info every shown dropped,
       call (get_deped_rss_feed Fixture.feed None) []
       = (inr (success [("feed_info", info); ("items", VList every)]),
          [EvGet primary_url; EvParseXML (Fixture.body "<rss>feed</rss>")])
       /\ call (get_deped_rss_feed Fixture.feed (Some (-1)%Z)) []
          = (inr (success [("feed_info", info); ("items", VList shown)]),
             [EvGet primary_url; EvParseXML (Fixture.body "<rss>feed</rss>")])
       /\ every = shown ++ dropped
       /\ Z.of_nat (List.length dropped)
          = Z.min (- -1) (Z.of_nat (List.length every)).
Proof.
  assert (Hk : (-1 < 0)%Z) by lia.
  split; [exact Hk|].
  exact (negative_max_items_drops_last Fixture.feed [] _ (-1) Fixture.rss
           Fixture.channel eq_refl eq_refl Hk).
Defined.

(** ** Categories and creator *)

Lemma item_categories_run (cats : list ET.element) (categories : list pyval) :
  item_categories cats categories
  = categories
    ++ map VStr
         (flat_map
            (fun category =>
               match ET.text category with
               | Some s => if String.eqb s "" then [] else [s]
               | None => []
               end) cats).
Proof.
  revert categories. induction cats as [|c cs IH]; intros categories; simpl.
  - now rewrite app_nil_r.
  - rewrite IH. destruct (ET.text c) as [s|]; simpl; [|reflexivity].
    destruct (String.eqb s ""); simpl; [reflexivity|].
    now rewrite <- app_assoc.
Qed.

Lemma category_texts_nonempty (item : ET.element) :
  Forall (fun s => s <> "") (category_texts item).
Proof.
  unfold category_texts. apply Forall_flat_map, Forall_forall.
  intros c _. destruct (ET.text c) as [s|]; [|constructor].
  destruct (String.eqb_spec s ""); repeat constructor. assumption.
Qed.

(** X17. The [categories] of a record are the texts of the [category]
    children of its item, in document order, without those that have no
    text or an empty one: the list holds strings only, none of them
    empty. *)
Theorem categories_are_the_nonempty_texts (L : Library)
  (max_items : option Z) (t t2 : trace) (root channel : ET.element) :
  parsed_feed L t = Some (root, t2) ->
  ET.find "channel" root = Some channel ->
  exists info items,
    call (get_deped_rss_feed L max_items) t
    = (inr (success [("feed_info", info); ("items", VList items)]), t2)
    /\ Forall2
         (fun item record =>
            dict_get "categories" record
            = Some (VList (map VStr (category_texts item)))
            /\ Forall (fun s => s <> "") (category_texts item))
         (slice_to max_items (ET.findall "item" channel)) items.
Proof.
  intros Hfeed Hchannel.
  rewrite (feed_of_channel L t t2 max_items root channel Hfeed Hchannel).
  eexists _, _. split; [reflexivity|].
  apply Forall2_map_r. intros item _. split.
  - change (dict_get "categories" (item_record L item))
      with (Some (VList (item_categories (ET.findall "category" item) []))).
    now rewrite item_categories_run.
  - apply category_texts_nonempty.
Qed.

Lemma categories_are_the_nonempty_texts_witness :
  ET.findall "category" Fixture.item1
  = [Fixture.empty "category"; Fixture.leaf "category" "Announcements"]
  /\ exists info items,
       call (get_deped_rss_feed Fixture.feed (Some 1%Z)) []
       = (inr (success [("feed_info", info); ("items", VList items)]),
          [EvGet primary_url; EvParseXML (Fixture.body "<rss>feed</rss>")])
       /\ Forall2
            (fun item record =>
               dict_get "categories" record
               = Some (VList (map VStr (category_texts item)))
               /\ Forall (fun s => s <> "") (category_texts item))
            [Fixture.item1] items
       /\ category_texts Fixture.item1 = ["Announcements"].
Proof.
  split; [reflexivity|].
  destruct (categories_are_the_nonempty_texts Fixture.feed (Some 1%Z) [] _
              Fixture.rss Fixture.channel eq_refl eq_refl)
    as (info & items & Hcall & Hcats).
  exists info, items. split; [exact Hcall|]. split; [exact Hcats|].
  reflexivity.
Defined.

Lemma find_descendant_none (name : string) (e : ET.element) :
  Forall (fun d => ET.tag d <> name) (ET.descendants e) ->
  ET.find_descendant name e = None.
Proof.
  unfold ET.find_descendant.
  induction 1 as [|d ds Hd _ IH]; simpl; [reflexivity|].
  apply String.eqb_neq in Hd. now rewrite Hd.
Qed.

Lemma find_descendant_first (name : string) (e c : ET.element)
  (before after : list ET.element) :
  ET.descendants e = before ++ c :: after ->
  Forall (fun d => ET.tag d <> name) before ->
  ET.tag c = name ->
  ET.find_descendant name e = Some c.
Proof.
  unfold ET.find_descendant. intros -> Hbefore Hc.
  induction Hbefore as [|b bs Hb _ IH]; simpl.
  - apply String.eqb_eq in Hc. now rewrite Hc.
  - apply String.eqb_neq in Hb. now rewrite Hb.
Qed.

(** X18. The [creator] of a record is always a string, never [None].
    It is the text of the first element in the Dublin Core namespace
    named [creator] anywhere below the item, however deep, and the
    empty string when that element has no text or when there is no such
    element; a [creator] element outside that namespace does not
    count. *)
Theorem creator_is_a_string (L : Library) (max_items : option Z)
  (t t2 : trace) (root channel : ET.element) :
  parsed_feed L t = Some (root, t2) ->
  ET.find "channel" root = Some channel ->
  exists info items,
    call (get_deped_rss_feed L max_items) t
    = (inr (success [("feed_info", info); ("items", VList items)]), t2)
    /\ Forall2
         (fun item record =>
            exists s,
              dict_get "creator" record = Some (VStr s)
              /\ (Forall (fun d => ET.tag d
                                   <> "{http://purl.org/dc/elements/1.1/}creator")
                    (ET.descendants item) -> s = "")
              /\ (forall before c after,
                    ET.descendants item = before ++ c :: after ->
                    Forall (fun d => ET.tag d
                                     <> "{http://purl.org/dc/elements/1.1/}creator")
                      before ->
                    ET.tag c = "{http://purl.org/dc/elements/1.1/}creator" ->
                    s = match ET.text c with
                        | Some text => text
                        | None => ""
                        end))
         (slice_to max_items (ET.findall "item" channel)) items.
Proof.
  intros Hfeed Hchannel.
  rewrite (feed_of_channel L t t2 max_items root channel Hfeed Hchannel).
  eexists _, _. split; [reflexivity|].
  apply Forall2_map_r. intros item _.
  change (dict_get "creator" (item_record L item))
    with (Some (item_creator item)).
  change "{http://purl.org/dc/elements/1.1/}creator" with dc_creator.
  unfold item_creator.
  destruct (ET.find_descendant dc_creator item) as [creator_elem|] eqn:Hfind.
  - assert (Hval : exists s,
              (if truthy (ET.text creator_elem)
               then of_text (ET.text creator_elem) else VStr "") = VStr s
              /\ s = match ET.text creator_elem with
                     | Some text => text
                     | None => ""
                     end).
    { destruct (ET.text creator_elem) as [text|]; simpl.
      - destruct (String.eqb_spec text "") as [->|_]; simpl;
          eexists; split; reflexivity.
      - eexists; split; reflexivity. }
    destruct Hval as (s & -> & Hs). exists s. split; [reflexivity|]. split.
    + intros Hnone. apply find_descendant_none in Hnone. congruence.
    + intros before c after Hdesc Hbefore Hc.
      rewrite (find_descendant_first _ _ _ _ _ Hdesc Hbefore Hc) in Hfind.
      injection Hfind as ->. exact Hs.
  - exists "". split; [reflexivity|]. split; [reflexivity|].
    intros before c after Hdesc Hbefore Hc.
    rewrite (find_descendant_first _ _ _ _ _ Hdesc Hbefore Hc) in Hfind.
    discriminate.
Qed.

Lemma creator_is_a_string_witness :
  exists info items,
    call (get_deped_rss_feed Cases.creators None) []
    = (inr (success [("feed_info", info); ("items", VList items)]),
       [EvGet primary_url; EvParseXML (Fixture.body "<rss>creators</rss>")])
    /\ map (dict_get "creator") items
       = [Some (VStr "editor"); Some (VStr "")].
Proof.
  destruct (creator_is_a_string Cases.creators None [] _
              (ET.Element "rss" None [Cases.creators_channel])
              Cases.creators_channel eq_refl eq_refl)
    as (info & items & Hcall & _).
  exists info, items. split; [exact Hcall|].
  vm_compute in Hcall. injection Hcall as <- <-. reflexivity.
Defined.

(** ** Success and failure of the feed *)

(** X19. [get_deped_rss_feed] returns a ["success"] envelope exactly
    when the fetch and the parse yield a tree and the root of that tree
    has a [channel] child; no property of the items, of their dates or
    of the limit can turn it into an error. *)
Theorem feed_succeeds_iff (L : Library) (max_items : option Z) (t : trace) :
  (exists v, fst (call (get_deped_rss_feed L max_items) t) = inr v
             /\ dict_get "status" v = Some (VStr "success"))
  <-> (exists root t2 channel,
         parsed_feed L t = Some (root, t2)
         /\ ET.find "channel" root = Some channel).
Proof.
  split.
  - intros (v & Hcall & Hstatus). revert Hcall.
    rewrite get_deped_rss_feed_run. unfold parsed_feed. cbv zeta.
    destruct (fetch_response L t) as [[response|v'|e] t1] eqn:Hfetch.
    + destruct (parse_response L response t1) as [[root|v'|e] t2] eqn:Hparse.
      * destruct (ET.find "channel" root) as [channel|] eqn:Hchannel.
        -- intros _. now exists root, t2, channel.
        -- intros [= <-]. discriminate Hstatus.
      * apply parse_response_return in Hparse as [message ->].
        intros [= <-]. discriminate Hstatus.
      * intros [= <-]. discriminate Hstatus.
    + apply fetch_response_return in Hfetch as [message ->].
      intros [= <-]. discriminate Hstatus.
    + intros [= <-]. discriminate Hstatus.
  - intros (root & t2 & channel & Hfeed & Hchannel).
    rewrite (feed_of_channel L t t2 max_items root channel Hfeed Hchannel).
    eexists. split; reflexivity.
Qed.

(** X20. An error envelope of [get_deped_rss_feed] carries one of four
    messages: the status code of a retry answered with a status other
    than 200, the text of a [ParseError], the missing channel, or the
    catch-all prefix followed by the text of an exception. *)
Theorem feed_error_messages (L : Library) (max_items : option Z)
  (t : trace) (v : pyval) :
  fst (call (get_deped_rss_feed L max_items) t) = inr v ->
  dict_get "status" v = Some (VStr "error") ->
  exists message, v = error message /\ feed_error_message message.
Proof.
  rewrite get_deped_rss_feed_run. cbv zeta.
  assert (Hroot : forall root,
    @inr pyexn pyval
      match ET.find "channel" root with
      | Some channel =>
          success
            [("feed_info", channel_info channel);
             ("items",
              VList (map (item_record L)
                       (slice_to max_items (ET.findall "item" channel))))]
      | None => error "Invalid RSS feed format (no channel element found)"
      end = inr v ->
    dict_get "status" v = Some (VStr "error") ->
    exists message, v = error message /\ feed_error_message message).
  { intros root. destruct (ET.find "channel" root).
    - intros [= <-] Hstatus. discriminate Hstatus.
    - intros [= <-] _. eexists. split; [reflexivity|].
      right. right. now left. }
  assert (Hparse : forall response t1,
    fst match parse_response L response t1 with
        | (Normal root, t2) =>
            (@inr pyexn pyval
               match ET.find "channel" root with
               | Some channel =>
                   success
                     [("feed_info", channel_info channel);
                      ("items",
                       VList (map (item_record L)
                                (slice_to max_items
                                   (ET.findall "item" channel))))]
               | None =>
                   error "Invalid RSS feed format (no channel element found)"
               end, t2)
        | (Return v', t2) => (inr v', t2)
        | (Raise e, t2) =>
            (inr (error ("Error when trying to parse DepEd RSS feed: "
                         ++ exn_str e)), t2)
        end = inr v ->
    dict_get "status" v = Some (VStr "error") ->
    exists message, v = error message /\ feed_error_message message).
  { intros response t1.
    pose proof (parse_response_run L response t1) as Hrun.
    cbv zeta in Hrun. rewrite Hrun. clear Hrun.
    destruct (fromstring L (content response)) as [e1|root];
      [|apply Hroot].
    destruct (is_ParseError e1).
    - destruct (fromstring L (encode_utf8 L _)) as [e2|root];
        [|apply Hroot].
      destruct (is_ParseError e2) eqn:Hclass; intros [= <-] _;
        (eexists; split; [reflexivity|]).
      + right. left. now exists e2.
      + do 3 right. now exists e2.
    - intros [= <-] _. eexists. split; [reflexivity|].
      do 3 right. now exists e1. }
  rewrite fetch_response_run.
  destruct (network L t primary_url) as [e|r1].
  { intros [= <-] _. eexists. split; [reflexivity|].
    do 3 right. now exists e. }
  destruct (status_code r1 =? 200)%Z; [apply Hparse|].
  destruct (network L _ alternate_url) as [e|r2].
  { intros [= <-] _. eexists. split; [reflexivity|].
    do 3 right. now exists e. }
  destruct (Z.eqb_spec (status_code r2) 200) as [_|Hne]; [apply Hparse|].
  intros [= <-] _. eexists. split; [reflexivity|]. left. now exists r2.
Qed.

Lemma feed_error_messages_witness :
  fst (call (get_deped_rss_feed Fixture.no_channel (Some 10%Z)) [])
  = inr (error "Invalid RSS feed format (no channel element found)")
  /\ exists message,
       error "Invalid RSS feed format (no channel element found)"
       = error message
       /\ feed_error_message message.
Proof.
  split; [reflexivity|].
  exact (feed_error_messages Fixture.no_channel (Some 10%Z) []
           (error "Invalid RSS feed format (no channel element found)")
           eq_refl eq_refl).
Defined.

(** ** The shape of what is returned *)

(** X21. Every item record has the same seven fields, in the same
    order. Its four text fields and its [formatted_date] are each a
    string or [None], and [formatted_date] is [None] exactly when
    [pub_date] is. *)
Theorem item_record_shape (L : Library) (max_items : option Z)
  (t t2 : trace) (root channel : ET.element) :
  parsed_feed L t = Some (root, t2) ->
  ET.find "channel" root = Some channel ->
  exists info items,
    call (get_deped_rss_feed L max_items) t
    = (inr (success [("feed_info", info); ("items", VList items)]), t2)
    /\ Forall
         (fun record =>
            exists d,
              record = VDict d
              /\ map fst d
                 = ["title"; "link"; "description"; "pub_date";
                    "formatted_date"; "categories"; "creator"]
              /\ Forall (fun field =>
                           exists text,
                             dict_get field record = Some (of_text text))
                   ["title"; "link"; "description"; "pub_date";
                    "formatted_date"]
              /\ (dict_get "formatted_date" record = Some VNone
                  <-> dict_get "pub_date" record = Some VNone))
         items.
Proof.
  intros Hfeed Hchannel.
  rewrite (feed_of_channel L t t2 max_items root channel Hfeed Hchannel).
  eexists _, _. split; [reflexivity|].
  apply Forall_forall. intros record Hin.
  apply in_map_iff in Hin as (item & <- & _).
  eexists. split; [reflexivity|]. split; [reflexivity|].
  assert (Hdate : exists text,
            formatted_date_of L (text_or_empty "pubDate" item) = of_text text
            /\ (text = None <-> text_or_empty "pubDate" item = None)).
  { unfold formatted_date_of.
    destruct (text_or_empty "pubDate" item) as [s|].
    - destruct (strptime L s rfc822) as [e|dt].
      + exists (Some s). split; [reflexivity|]. split; discriminate.
      + exists (Some (strftime L dt nice_date)).
        split; [reflexivity|]. split; discriminate.
    - exists None. split; [reflexivity|]. tauto. }
  destruct Hdate as (text & Hdate & Hnone).
  split.
  - repeat constructor;
      try (eexists; reflexivity).
    exists text.
    change (dict_get "formatted_date" (item_record L item))
      with (Some (formatted_date_of L (text_or_empty "pubDate" item))).
    now rewrite Hdate.
  - change (dict_get "formatted_date" (item_record L item))
      with (Some (formatted_date_of L (text_or_empty "pubDate" item))).
    change (dict_get "pub_date" (item_record L item))
      with (Some (of_text (text_or_empty "pubDate" item))).
    rewrite Hdate.
    destruct text as [s|], (text_or_empty "pubDate" item) as [s'|]; simpl.
    + split; intros H; discriminate H.
    + pose proof (proj2 Hnone eq_refl) as Habsurd. discriminate Habsurd.
    + pose proof (proj1 Hnone eq_refl) as Habsurd. discriminate Habsurd.
    + split; reflexivity.
Qed.

Lemma item_record_shape_witness :
  exists info items,
    call (get_deped_rss_feed Fixture.feed None) []
    = (inr (success [("feed_info", info); ("items", VList items)]),
       [EvGet primary_url; EvParseXML (Fixture.body "<rss>feed</rss>")])
    /\ List.length items = 3%nat
    /\ Forall
         (fun record =>
            dict_get "formatted_date" record = Some VNone
            <-> dict_get "pub_date" record = Some VNone)
         items.
Proof.
  destruct (item_record_shape Fixture.feed None [] _ Fixture.rss
              Fixture.channel eq_refl eq_refl)
    as (info & items & Hcall & Hshape).
  exists info, items. split; [exact Hcall|]. split.
  - vm_compute in Hcall. injection Hcall as <- <-. reflexivity.
  - eapply Forall_impl; [|exact Hshape].
    intros record (d & _ & _ & _ & Hiff). exact Hiff.
Defined.

(** X22. A count never adds and never reorders: whatever the count,
    [None], positive, zero or negative, the list a scraper returns is a
    prefix of the list it returns without a count. *)
Theorem count_keeps_a_prefix (L : Library) (n : option Z) (t : trace)
  (soup : Bs4.node) :
  (parsed_page L hackernews_url t = Some soup ->
   exists every shown dropped,
     fst (call (get_hackernews_posts L None) t)
     = inr (success [("posts", VList every)])
     /\ fst (call (get_hackernews_posts L n) t)
        = inr (success [("posts", VList shown)])
     /\ every = shown ++ dropped)
  /\ (parsed_page L trending_url t = Some soup ->
      exists every shown dropped,
        fst (call (get_github_trending_repos L None) t)
        = inr (success [("repos", VList every)])
        /\ fst (call (get_github_trending_repos L n) t)
           = inr (success [("repos", VList shown)])
        /\ every = shown ++ dropped).
Proof.
  assert (Hprefix : forall l : list pyval,
            exists dropped, l = slice_to n l ++ dropped).
  { intros l. destruct n as [k|]; cbn [slice_to].
    - eexists. symmetry. apply firstn_skipn.
    - exists []. now rewrite app_nil_r. }
  split; intros Hpage.
  - rewrite !(posts_of_page _ _ _ _ Hpage). cbn [fst slice_to].
    destruct (Hprefix (all_posts soup)) as [dropped Hdropped].
    now exists (all_posts soup), (slice_to n (all_posts soup)), dropped.
  - rewrite !(repos_of_page _ _ _ _ Hpage). cbn [fst slice_to].
    destruct (Hprefix (all_repos soup)) as [dropped Hdropped].
    now exists (all_repos soup), (slice_to n (all_repos soup)), dropped.
Qed.

Lemma count_keeps_a_prefix_witness :
  exists every shown dropped,
    fst (call (get_hackernews_posts Fixture.scrapers None) [])
    = inr (success [("posts", VList every)])
    /\ fst (call (get_hackernews_posts Fixture.scrapers (Some (-2)%Z)) [])
       = inr (success [("posts", VList shown)])
    /\ every = shown ++ dropped.
Proof.
  exact (proj1 (count_keeps_a_prefix Fixture.scrapers (Some (-2)%Z) []
                  Fixture.front_page) eq_refl).
Defined.
